(** * Atlassian REST client: Bitbucket Cloud pull requests and the
      Service Desk flat client.

    A shallow embedding of
      - [atlassian/bitbucket/cloud/const.py],
      - [atlassian/bitbucket/cloud/repositories/pullRequests.py],
      - [atlassian/service_desk.py],
    with the HTTP layer made explicit: every method runs against a log of the
    requests issued so far, and the answers of the server are a parameter. *)

From Stdlib Require Import String Ascii List ZArith Bool Lia.
From Stdlib Require Import DecimalString.
Import ListNotations.
Open Scope string_scope.
Open Scope list_scope.
Set Warnings "-register-all".

(** ** Python values *)

Module Py.

(** The JSON-shaped fragment of Python values the clients handle.  A [dict]
    keeps its insertion order, so it is an association list; [lookup] reads
    the first binding of a key. Floats do not occur in the modelled code. *)
Inductive pyval : Type :=
| PyNone
| PyBool (b : bool)
| PyInt (n : Z)
| PyStr (s : string)
| PyList (l : list pyval)
| PyDict (d : list (string * pyval)).

Definition dict : Type := list (string * pyval).

(** The exceptions the modelled code raises or lets through. *)
Inductive pyexc : Type :=
| Exception (msg : string)
| ValueError (msg : string)
| KeyError (key : string)
| AttributeError (attr : string)
| TypeError (msg : string)
| SchemaMismatch (expected : string)
| TransportError (msg : string).

(** The result of evaluating a Python expression or call. *)
Inductive outcome (A : Type) : Type :=
| Ret (a : A)
| Raise (e : pyexc).
Arguments Ret {A} a.
Arguments Raise {A} e.

Definition obind {A B} (o : outcome A) (k : A -> outcome B) : outcome B :=
  match o with
  | Ret a => k a
  | Raise e => Raise e
  end.

(** [key in d] *)
Definition has_key (k : string) (d : dict) : bool :=
  existsb (fun kv => String.eqb (fst kv) k) d.

(** [d.get(key)] as an option *)
Fixpoint lookup (k : string) (d : dict) : option pyval :=
  match d with
  | [] => None
  | (k', v) :: d' => if String.eqb k' k then Some v else lookup k d'
  end.

(** [d[key] = v]: overwrite in place, or append a new key. *)
Fixpoint dict_set (k : string) (v : pyval) (d : dict) : dict :=
  match d with
  | [] => [(k, v)]
  | (k', v') :: d' =>
      if String.eqb k' k then (k', v) :: d' else (k', v') :: dict_set k v d'
  end.

(** Truth value testing: [None], [False], zero and the empty string, list
    and dict are false, everything else is true. *)
Definition truthy (v : pyval) : bool :=
  match v with
  | PyNone => false
  | PyBool b => b
  | PyInt n => negb (Z.eqb n 0)
  | PyStr s => negb (String.eqb s EmptyString)
  | PyList l => match l with [] => false | _ => true end
  | PyDict d => match d with [] => false | _ => true end
  end.

(** [a or b], with [b] evaluated only when [a] is false. *)
Definition py_or (a : pyval) (b : outcome pyval) : outcome pyval :=
  if truthy a then Ret a else b.

(** [v is None] *)
Definition is_none (v : pyval) : bool :=
  match v with PyNone => true | _ => false end.

(** [v == s] for a string constant [s]. *)
Definition eq_str (v : pyval) (s : string) : bool :=
  match v with PyStr s' => String.eqb s' s | _ => false end.

(** [v in strs] for a list of string constants. *)
Definition in_strs (v : pyval) (strs : list string) : bool :=
  existsb (eq_str v) strs.

(** [str.upper] is a builtin that maps by the Unicode case rules; the
    methods below take it as a parameter [upper]. On a string of ASCII
    characters it is the byte map [ascii_upper], which the examples use. *)
Definition upper_ascii (c : ascii) : ascii :=
  let n := nat_of_ascii c in
  if andb (Nat.leb 97 n) (Nat.leb n 122) then ascii_of_nat (n - 32) else c.

Fixpoint ascii_upper (s : string) : string :=
  match s with
  | EmptyString => EmptyString
  | String c s' => String (upper_ascii c) (ascii_upper s')
  end.

(** [v.upper()]: only strings have the method. *)
Definition py_upper (upper : string -> string) (v : pyval)
  : outcome string :=
  match v with
  | PyStr s => Ret (upper s)
  | _ => Raise (AttributeError "upper")
  end.

(** ** The HTTP boundary *)

Inductive http_method : Type := GET | POST | PUT | DELETE.

(** One call of the request primitive: the URL of the object that issues it,
    the path argument, and the keyword arguments the callers pass. *)
Record request : Type := mkRequest {
  r_method : http_method;
  r_url : string;
  r_path : option string;
  r_params : dict;
  r_headers : option dict;
  r_data : option pyval
}.

(** A computation that issues requests: it reads the log of the requests
    made so far and returns its outcome with the extended log. *)
Definition io (A : Type) : Type := list request -> outcome A * list request.

Definition ret {A} (a : A) : io A := fun log => (Ret a, log).
Definition raise {A} (e : pyexc) : io A := fun log => (Raise e, log).
Definition lift {A} (o : outcome A) : io A := fun log => (o, log).
Definition bind {A B} (m : io A) (k : A -> io B) : io B :=
  fun log =>
    match m log with
    | (Ret a, log') => k a log'
    | (Raise e, log') => (Raise e, log')
    end.

End Py.

Import Py.

Notation "x <- m ;; k" := (bind m (fun x => k))
  (at level 61, m at next level, right associativity).
Notation "m ;;; k" := (bind m (fun _ => k))
  (at level 61, right associativity).

(** ** Bitbucket Cloud *)

Module Bitbucket.

(** *** const.py *)

Definition PR_MERGE_COMMIT : string := "merge_commit".
Definition PR_MERGE_SQUASH : string := "squash".
Definition PR_MERGE_FF : string := "fast_forward".
Definition PR_MERGE_STRATEGIES : list string :=
  [PR_MERGE_COMMIT; PR_MERGE_SQUASH; PR_MERGE_FF].
Definition PR_STATE_OPEN : string := "OPEN".
Definition PR_STATE_DECLINED : string := "DECLINED".
Definition PR_STATE_MERGED : string := "MERGED".
Definition PR_STATE_SUPERSEDED : string := "SUPERSEDED".

(** *** class PullRequest *)

Module PullRequest.

(** The object: its own URL and the cached document. *)
Record t : Type := mk { url : string; data : dict }.

Section Methods.

(** [str.upper], a builtin. *)
Variable upper : string -> string.

(** What the base class answers for a field the document lacks; the base
    class is outside the modelled sources. *)
Variable absent : string -> outcome pyval.

(** The answer of the server to a POST or DELETE, given the requests made
    before it. *)
Variable send : list request -> request -> outcome pyval.

(** Modelled from the spec: the constructor of the base class, which checks
    the document's type tag against the expected one ("pullrequest") and
    skips the check when the document carries no tag. *)
Definition __init__ (url : string) (data : dict) : outcome t :=
  match lookup "type" data with
  | Some tag =>
      if eq_str tag "pullrequest" then Ret (mk url data)
      else Raise (SchemaMismatch "pullrequest")
  | None => Ret (mk url data)
  end.

(** Modelled from the spec: [get_data] of the base class, a pure read of the
    owned document. *)
Definition get_data (self : t) (key : string) : outcome pyval :=
  match lookup key (data self) with
  | Some v => Ret v
  | None => absent key
  end.

(** Modelled from the spec: [post(path, json?)] and [delete(path)] of the
    base class, one request each against a sub-path of the object's URL. *)
Definition post (self : t) (path : string) (body : option pyval) : io pyval :=
  fun log =>
    let r := mkRequest POST (url self) (Some path) [] None body in
    (send log r, log ++ [r]).

Definition delete (self : t) (path : string) : io pyval :=
  fun log =>
    let r := mkRequest DELETE (url self) (Some path) [] None None in
    (send log r, log ++ [r]).

Definition is_declined (self : t) : outcome bool :=
  obind (get_data self "state") (fun st =>
  obind (py_upper upper st) (fun u => Ret (String.eqb u PR_STATE_DECLINED))).

Definition is_merged (self : t) : outcome bool :=
  obind (get_data self "state") (fun st =>
  obind (py_upper upper st) (fun u => Ret (String.eqb u PR_STATE_MERGED))).

Definition is_open (self : t) : outcome bool :=
  obind (get_data self "state") (fun st =>
  obind (py_upper upper st) (fun u => Ret (String.eqb u PR_STATE_OPEN))).

Definition is_superseded (self : t) : outcome bool :=
  obind (get_data self "state") (fun st =>
  obind (py_upper upper st) (fun u => Ret (String.eqb u PR_STATE_SUPERSEDED))).

Definition close_source_branch (self : t) : outcome pyval :=
  get_data self "close_source_branch".

Definition _check_if_open (self : t) : io unit :=
  b <- lift (is_open self) ;;
  if negb b then raise (Exception "Pull Request isn't open") else ret tt.

Definition comment (self : t) (raw_message : pyval) : io pyval :=
  if negb (truthy raw_message) then raise (ValueError "No message set")
  else
    let body := PyDict [("content", PyDict [("raw", raw_message)])] in
    post self "comments" (Some body).

Definition approve (self : t) : io pyval :=
  _check_if_open self ;;;
  post self "approve" (Some (PyDict [("approved", PyBool true)])).

Definition unapprove (self : t) : io pyval :=
  _check_if_open self ;;;
  delete self "approve".

Definition decline (self : t) : io pyval :=
  _check_if_open self ;;;
  post self "decline" None.

(** [merge(merge_strategy=PR_MERGE_COMMIT, close_source_branch=None)]; an
    argument that is not supplied is [None] here and takes its default. *)
Definition merge (self : t) (merge_strategy close_branch : option pyval)
  : io pyval :=
  let merge_strategy :=
    match merge_strategy with Some v => v | None => PyStr PR_MERGE_COMMIT end in
  let close_branch :=
    match close_branch with Some v => v | None => PyNone end in
  _check_if_open self ;;;
  if negb (in_strs merge_strategy PR_MERGE_STRATEGIES) then
    raise (ValueError
      "merge_stragegy must be ['merge_commit', 'squash', 'fast_forward']")
  else
    flag <- lift (py_or close_branch (close_source_branch self)) ;;
    post self "merge"
      (Some (PyDict [("close_source_branch", flag);
                     ("merge_strategy", merge_strategy)])).

End Methods.

End PullRequest.

(** *** class PullRequests *)

Module PullRequests.

Record t : Type := mk { url : string }.

(** One page of a paged answer: the batch of raw documents and the pointer
    to the next page, if any. *)
Record page : Type := mkPage { values : list dict; next : option string }.

(** What a generator does when it is run to its end: the requests it issues
    and the items it yields, in order, and how it stops. *)
Inductive event (A : Type) : Type :=
| Req (r : request)
| Yield (a : A).
Arguments Req {A} r.
Arguments Yield {A} a.

Inductive stop : Type :=
| Exhausted
| Raised (e : pyexc)
| OutOfFuel.

Definition gen (A : Type) : Type := (list (event A) * stop)%type.

Section Methods.

(** [url_joiner] of the REST client, outside the modelled sources. *)
Variable url_joiner : string -> pyval -> string.

(** The answer of the server to a paged GET, given the requests made before
    it. *)
Variable get_page : list request -> request -> outcome page.

(** Modelled from the spec: [_get_paged] of the base class. The first request
    carries the query parameters; each next-page pointer is followed as it
    is, until a page has none. [fuel] bounds the number of pages. The
    trailing-slash flag of the first request only shapes its URL and is
    left out. *)
Fixpoint _get_paged_from (fuel : nat) (log : list request) (r : request)
  : gen dict :=
  match fuel with
  | O => ([], OutOfFuel)
  | S fuel' =>
      match get_page log r with
      | Raise e => ([Req r], Raised e)
      | Ret pg =>
          let here := Req r :: map Yield (values pg) in
          match next pg with
          | None => (here, Exhausted)
          | Some u =>
              let following := mkRequest GET u None [] None None in
              let (rest, st) := _get_paged_from fuel' (log ++ [r]) following in
              (here ++ rest, st)
          end
      end
  end.

Definition _get_paged (fuel : nat) (self : t) (path : option string)
    (params : dict) (log : list request) : gen dict :=
  _get_paged_from fuel log (mkRequest GET (url self) path params None None).

Definition __get_object (self : t) (data : dict)
  : outcome (option PullRequest.t) :=
  if has_key "errors" data then Ret None
  else
    match lookup "id" data with
    | None => Raise (KeyError "id")
    | Some id =>
        obind (PullRequest.__init__ (url_joiner (url self) id) data)
              (fun pr => Ret (Some pr))
    end.

(** The body of the [for] loop of [each], run over what [_get_paged] does: a
    request is passed on, an item is replaced by [__get_object] of it, and an
    exception there ends the generator. *)
Fixpoint each_loop (self : t) (evs : list (event dict)) (st : stop)
  : gen (option PullRequest.t) :=
  match evs with
  | [] => ([], st)
  | Req r :: evs' =>
      let (out, st') := each_loop self evs' st in (Req r :: out, st')
  | Yield pr :: evs' =>
      match __get_object self pr with
      | Raise e => ([], Raised e)
      | Ret o =>
          let (out, st') := each_loop self evs' st in (Yield o :: out, st')
      end
  end.

Definition each (fuel : nat) (self : t) (q sort : pyval)
    (log : list request) : gen (option PullRequest.t) :=
  let params := [] in
  let params := if negb (is_none sort) then dict_set "sort" sort params
                else params in
  let params := if negb (is_none q) then dict_set "q" q params else params in
  let (evs, st) := _get_paged fuel self None params log in
  each_loop self evs st.

End Methods.

(** The items a generator yields and the requests it issues. *)
Fixpoint yielded {A} (evs : list (event A)) : list A :=
  match evs with
  | [] => []
  | Req _ :: evs' => yielded evs'
  | Yield a :: evs' => a :: yielded evs'
  end.

Fixpoint requested {A} (evs : list (event A)) : list request :=
  match evs with
  | [] => []
  | Req r :: evs' => r :: requested evs'
  | Yield _ :: evs' => requested evs'
  end.

End PullRequests.

End Bitbucket.

(** ** Service Desk *)

Module ServiceDesk.

(** The client: the site URL, the [advanced_mode] switch of the REST client
    and the headers it sends to the experimental API. *)
Record t : Type := mk {
  url : string;
  advanced_mode : bool;
  experimental_headers : dict
}.

Section Methods.

(** [int(s)] for a string [s], a builtin. *)
Variable int_of_str : string -> outcome Z.

(** The answer of the server to a GET, given the requests made before it. *)
Variable server : list request -> request -> outcome pyval.

(** [int(v)]; the arguments are documented as ints, on which it is the
    identity. *)
Definition py_int (v : pyval) : outcome Z :=
  match v with
  | PyInt n => Ret n
  | PyBool b => Ret (if b then 1%Z else 0%Z)
  | PyStr s => int_of_str s
  | _ => Raise (TypeError "int() argument")
  end.

(** Modelled from the spec: [get(path, params?)] of the REST client, one
    request and its parsed answer. *)
Definition get (self : t) (path : string) (params : dict) : io pyval :=
  fun log =>
    let r := mkRequest GET (url self) (Some path) params
                       (Some (experimental_headers self)) None in
    (server log r, log ++ [r]).

(** The block every paged method repeats:
    [if start is not None: params["start"] = int(start)], then the same for
    [limit]. *)
Definition set_start_limit (start limit : pyval) (params : dict)
  : outcome dict :=
  obind (if negb (is_none start)
         then obind (py_int start)
                (fun n => Ret (dict_set "start" (PyInt n) params))
         else Ret params) (fun params =>
  if negb (is_none limit)
  then obind (py_int limit) (fun n => Ret (dict_set "limit" (PyInt n) params))
  else Ret params).

(** [(response or {}).get("values")] *)
Definition values_of (response : pyval) : outcome pyval :=
  match (if truthy response then response else PyDict []) with
  | PyDict d =>
      Ret (match lookup "values" d with Some v => v | None => PyNone end)
  | _ => Raise (AttributeError "get")
  end.

Definition get_service_desks (self : t) : io pyval :=
  service_desks_list <- get self "rest/servicedeskapi/servicedesk" [] ;;
  if advanced_mode self then ret service_desks_list
  else lift (values_of service_desks_list).

Definition get_my_customer_requests (self : t) : io pyval :=
  response <- get self "rest/servicedeskapi/request" [] ;;
  if advanced_mode self then ret response
  else lift (values_of response).

Definition get_request_participants (self : t) (issue_id_or_key : string)
    (start limit : pyval) : io pyval :=
  let url :=
    ("rest/servicedeskapi/request/" ++ issue_id_or_key
     ++ "/participant")%string in
  params <- lift (set_start_limit start limit []) ;;
  response <- get self url params ;;
  if advanced_mode self then ret response
  else lift (values_of response).

Definition get_organisations (self : t) (service_desk_id : option string)
    (start limit : pyval) : io pyval :=
  let url_without_sd_id := "rest/servicedeskapi/organization" in
  let url_with_sd_id :=
    ("rest/servicedeskapi/servicedesk/"
     ++ match service_desk_id with Some i => i | None => "None" end
     ++ "/organization")%string in
  params <- lift (set_start_limit start limit []) ;;
  match service_desk_id with
  | None => get self url_without_sd_id params
  | Some _ => get self url_with_sd_id params
  end.

Definition get_users_in_organization (self : t) (organization_id : string)
    (start limit : pyval) : io pyval :=
  let url :=
    ("rest/servicedeskapi/organization/" ++ organization_id
     ++ "/user")%string in
  params <- lift (set_start_limit start limit []) ;;
  get self url params.

Definition get_sla (self : t) (issue_id_or_key : string)
    (start limit : pyval) : io pyval :=
  let url :=
    ("rest/servicedeskapi/request/" ++ issue_id_or_key ++ "/sla")%string in
  params <- lift (set_start_limit start limit []) ;;
  response <- get self url params ;;
  if advanced_mode self then ret response
  else lift (values_of response).

Definition get_approvals (self : t) (issue_id_or_key : string)
    (start limit : pyval) : io pyval :=
  let url :=
    ("rest/servicedeskapi/request/" ++ issue_id_or_key ++ "/approval")%string in
  params <- lift (set_start_limit start limit []) ;;
  response <- get self url params ;;
  if advanced_mode self then ret response
  else lift (values_of response).

Definition get_customers (self : t) (service_desk_id : string)
    (query start limit : pyval) : io pyval :=
  let url :=
    ("rest/servicedeskapi/servicedesk/" ++ service_desk_id
     ++ "/customer")%string in
  params <- lift (set_start_limit start limit []) ;;
  let params := if negb (is_none query) then dict_set "query" query params
                else params in
  get self url params.

Definition get_queues (self : t) (service_desk_id : string)
    (include_count start limit : pyval) : io pyval :=
  let url :=
    ("rest/servicedeskapi/servicedesk/" ++ service_desk_id
     ++ "/queue")%string in
  let params := [] in
  let params :=
    if negb (is_none include_count)
    then dict_set "includeCount" (PyBool (truthy include_count)) params
    else params in
  params <- lift (set_start_limit start limit params) ;;
  get self url params.

Definition get_issues_in_queue (self : t) (service_desk_id queue_id : string)
    (start limit : pyval) : io pyval :=
  let url :=
    ("rest/servicedeskapi/servicedesk/" ++ service_desk_id ++ "/queue/"
     ++ queue_id ++ "/issue")%string in
  params <- lift (set_start_limit start limit []) ;;
  get self url params.

End Methods.

End ServiceDesk.

(** ** Notions the statements use *)

Module Spec.

Import Bitbucket.

(** The four values of the state enumeration. *)
Definition PR_STATES : list string :=
  [PR_STATE_OPEN; PR_STATE_MERGED; PR_STATE_DECLINED; PR_STATE_SUPERSEDED].

(** How many of the given predicates hold. *)
Definition count_true (bs : list bool) : nat :=
  length (filter (fun b => b) bs).

(** A message for [comment]: [None] or a string. *)
Definition is_message (m : pyval) : Prop :=
  m = PyNone \/ exists s, m = PyStr s.

(** The empty messages: [None] and the empty string. *)
Definition empty_message (m : pyval) : Prop :=
  m = PyNone \/ m = PyStr EmptyString.

(** A paging argument as documented: [None] or an int. *)
Definition opt_int (v : pyval) : Prop :=
  v = PyNone \/ exists n, v = PyInt n.

(** The int that [int()] makes of a paging argument: an int is kept, True
    and False become 1 and 0, a string is parsed; nothing else converts. *)
Definition int_value (int_of_str : string -> outcome Z) (v : pyval)
  : option Z :=
  match v with
  | PyInt n => Some n
  | PyBool true => Some 1%Z
  | PyBool false => Some 0%Z
  | PyStr s =>
      match int_of_str s with
      | Ret n => Some n
      | Raise _ => None
      end
  | _ => None
  end.

(** A paging argument a call can be made with: None, or a value that
    [int()] converts. *)
Definition paging_arg (int_of_str : string -> outcome Z) (v : pyval)
  : Prop :=
  v = PyNone \/ exists n, int_value int_of_str v = Some n.

(** The query parameter a paging argument is forwarded as: none for None,
    else its int. *)
Definition forwarded (int_of_str : string -> outcome Z) (name : string)
    (v : pyval) : dict :=
  if is_none v then []
  else match int_value int_of_str v with
       | Some n => [(name, PyInt n)]
       | None => []
       end.

Definition forwarded_params (int_of_str : string -> outcome Z)
    (start limit : pyval) : dict :=
  forwarded int_of_str "start" start ++ forwarded int_of_str "limit" limit.

(** The query parameters a paging argument contributes. *)
Definition int_param (name : string) (v : pyval) : dict :=
  match v with
  | PyInt n => [(name, PyInt n)]
  | _ => []
  end.

(** A record of a page that carries the server-side error marker. *)
Definition error_marker (d : dict) : bool := has_key "errors" d.

(** A well-formed pull request record: no error marker, an id, and a type
    tag that is absent or "pullrequest". *)
Definition well_formed (d : dict) : bool :=
  negb (has_key "errors" d)
  && match lookup "id" d with Some _ => true | None => false end
  && match lookup "type" d with
     | Some tag => eq_str tag "pullrequest"
     | None => true
     end.

(** The object a well-formed record is wrapped into, given the joined URL. *)
Definition wrapped (joined : string) (d : dict) : Bitbucket.PullRequest.t :=
  Bitbucket.PullRequest.mk joined d.

(** What a list method that unwraps its answer returns for a given
    response: the response itself in advanced mode; otherwise [None] for a
    false response and the "values" field ([None] when missing) of a
    mapping. *)
Definition unwrapped (advanced : bool) (response : pyval)
    (result : outcome pyval) : Prop :=
  (advanced = true -> result = Ret response)
  /\ (advanced = false -> truthy response = false -> result = Ret PyNone)
  /\ (advanced = false -> forall d, response = PyDict d ->
        result = Ret (match lookup "values" d with
                      | Some v => v
                      | None => PyNone
                      end)).

(** The exception of [_check_if_open] and the one [merge] raises for a
    strategy it does not know. *)
Definition not_open_error : pyexc := Exception "Pull Request isn't open".

Definition bad_strategy_error : pyexc :=
  ValueError
    "merge_stragegy must be ['merge_commit', 'squash', 'fast_forward']".

(** The request [self.post(path, body)] makes. *)
Definition post_of (pr : PullRequest.t) (path : string)
    (body : option pyval) : request :=
  mkRequest POST (PullRequest.url pr) (Some path) [] None body.

(** The JSON body of a merge request. *)
Definition merge_body (flag strategy : pyval) : pyval :=
  PyDict [("close_source_branch", flag); ("merge_strategy", strategy)].

(** The query parameters of the first request of [each]. *)
Definition each_params (q sort : pyval) : dict :=
  (if is_none sort then [] else [("sort", sort)])
  ++ (if is_none q then [] else [("q", q)]).

(** A record [each] can turn into an item: an error marker or a well-formed
    record. *)
Definition acceptable (d : dict) : bool := error_marker d || well_formed d.

(** The item [each] yields for a record: nothing for an error marker, the
    wrapped object otherwise. *)
Definition item_for (url_joiner : string -> pyval -> string)
    (self : PullRequests.t) (d : dict) : option PullRequest.t :=
  if error_marker d then None
  else match lookup "id" d with
       | Some id => Some (wrapped (url_joiner (PullRequests.url self) id) d)
       | None => None
       end.

(** A generator with every yielded item replaced by its image. *)
Definition map_yield {A B} (f : A -> B) (evs : list (PullRequests.event A))
  : list (PullRequests.event B) :=
  map (fun ev => match ev with
                 | PullRequests.Req r => PullRequests.Req r
                 | PullRequests.Yield a => PullRequests.Yield (f a)
                 end) evs.

(** The request [self.get(path, params=..., headers=experimental_headers)]
    of the Service Desk client makes. *)
Definition desk_request (self : ServiceDesk.t) (path : string)
    (params : dict) : request :=
  mkRequest GET (ServiceDesk.url self) (Some path) params
            (Some (ServiceDesk.experimental_headers self)) None.

(** [start] and [limit] as query parameters: present when not [None]. *)
Definition paging_params (start limit : pyval) : dict :=
  int_param "start" start ++ int_param "limit" limit.

End Spec.

(** ** Concrete objects and servers *)

Module Examples.

Import Bitbucket.

Definition absent_keyerror (key : string) : outcome pyval :=
  Raise (KeyError key).

(** A server that answers every request with an empty JSON object. *)
Definition ok_server (log : list request) (r : request) : outcome pyval :=
  Ret (PyDict []).

Definition pr_with (state : string) (flag : bool) : PullRequest.t :=
  PullRequest.mk "prs/7"
    [("type", PyStr "pullrequest"); ("id", PyInt 7);
     ("state", PyStr state); ("close_source_branch", PyBool flag)].

Definition open_pr : PullRequest.t := pr_with "OPEN" true.
Definition merged_pr : PullRequest.t := pr_with "MERGED" false.
Definition odd_pr : PullRequest.t := pr_with "draft" false.

(** [url_joiner] on the ids of the examples. *)
Definition join (url : string) (p : pyval) : string :=
  match p with
  | PyInt 1 => (url ++ "/1")%string
  | PyInt 2 => (url ++ "/2")%string
  | PyStr s => (url ++ "/" ++ s)%string
  | _ => url
  end.

Definition good_record : dict :=
  [("type", PyStr "pullrequest"); ("id", PyInt 1); ("state", PyStr "OPEN")].

Definition error_record : dict :=
  [("errors", PyList [PyStr "backend failure"])].

(** A server whose only page holds one well-formed record and one
    error-marker record. *)
Definition one_page (log : list request) (r : request)
  : outcome PullRequests.page :=
  Ret (PullRequests.mkPage [good_record; error_record] None).

Definition prs : PullRequests.t := PullRequests.mk "prs".

Definition desk (advanced : bool) : ServiceDesk.t :=
  ServiceDesk.mk "https://desk" advanced
    [("X-ExperimentalApi", PyStr "opt-in")].

Definition no_int_of_str (s : string) : outcome Z :=
  Raise (ValueError "invalid literal for int()").

(** [int()] on the one string the examples pass. *)
Definition fifty_of_str (s : string) : outcome Z :=
  if String.eqb s "50" then Ret 50%Z
  else Raise (ValueError "invalid literal for int()").

(** A server whose answers always point to a further page. *)
Definition paging_server (log : list request) (r : request)
  : outcome pyval :=
  Ret (PyDict [("values", PyList [PyStr "a"; PyStr "b"]);
               ("isLastPage", PyBool false);
               ("_links", PyDict [("next", PyStr "https://desk/next")])]).

End Examples.

(** ** Further builtins *)

Module PyMore.

(** [str.lower] on the ASCII range; other bytes are kept. *)
Definition lower_ascii (c : ascii) : ascii :=
  let n := nat_of_ascii c in
  if andb (Nat.leb 65 n) (Nat.leb n 90) then ascii_of_nat (n + 32) else c.

Fixpoint lower (s : string) : string :=
  match s with
  | EmptyString => EmptyString
  | String c s' => String (lower_ascii c) (lower s')
  end.

(** [str(n)] for an int. *)
Definition decimal (n : Z) : string := NilZero.string_of_int (Z.to_int n).

(** [str(v)]; the rendering of a list or dict is left to [repr]. *)
Definition py_str (repr : pyval -> string) (v : pyval) : string :=
  match v with
  | PyNone => "None"
  | PyBool true => "True"
  | PyBool false => "False"
  | PyInt n => decimal n
  | PyStr s => s
  | _ => repr v
  end.

(** [v[key]] for a string key. *)
Definition py_getitem (v : pyval) (key : string) : outcome pyval :=
  match v with
  | PyDict d =>
      match lookup key d with
      | Some x => Ret x
      | None => Raise (KeyError key)
      end
  | PyList _ => Raise (TypeError "list indices must be integers")
  | PyStr _ => Raise (TypeError "string indices must be integers")
  | _ => Raise (TypeError "object is not subscriptable")
  end.

(** [v.get(key, default)]: only a dict has the method. *)
Definition py_get (v : pyval) (key : string) (default : pyval)
  : outcome pyval :=
  match v with
  | PyDict d =>
      Ret (match lookup key d with Some x => x | None => default end)
  | _ => Raise (AttributeError "get")
  end.

(** Exceptions beyond those of [pyexc]. *)
Inductive xexc : Type :=
| Std (e : pyexc)
| KeyErrorInt (key : Z)
| IndexError
| StopIteration.

Inductive xoutcome (A : Type) : Type :=
| XRet (a : A)
| XRaise (e : xexc).
Arguments XRet {A} a.
Arguments XRaise {A} e.

Definition xlift {A} (o : outcome A) : xoutcome A :=
  match o with
  | Ret a => XRet a
  | Raise e => XRaise (Std e)
  end.

Definition xbind {A B} (o : xoutcome A) (k : A -> xoutcome B) : xoutcome B :=
  match o with
  | XRet a => k a
  | XRaise e => XRaise e
  end.

(** [v[0]]: the first element of a list, the first character of a string;
    a dict of string keys has no key 0. *)
Definition py_first (v : pyval) : xoutcome pyval :=
  match v with
  | PyList (x :: _) => XRet x
  | PyList [] => XRaise IndexError
  | PyStr (String c _) => XRet (PyStr (String c EmptyString))
  | PyStr EmptyString => XRaise IndexError
  | PyDict _ => XRaise (KeyErrorInt 0)
  | _ => XRaise (Std (TypeError "object is not subscriptable"))
  end.

Fixpoint chars (s : string) : list pyval :=
  match s with
  | EmptyString => []
  | String c s' => PyStr (String c EmptyString) :: chars s'
  end.

(** The items a [for] loop over [v] visits: the elements of a list, the
    keys of a dict, the characters of a string. *)
Definition py_iter (v : pyval) : outcome (list pyval) :=
  match v with
  | PyList l => Ret l
  | PyDict d => Ret (map (fun kv => PyStr (fst kv)) d)
  | PyStr s => Ret (chars s)
  | _ => Raise (TypeError "object is not iterable")
  end.

(** A comprehension [[f(i) for i in items]]: the first exception ends it. *)
Fixpoint collect {A} (f : pyval -> outcome A) (items : list pyval)
  : outcome (list A) :=
  match items with
  | [] => Ret []
  | i :: items' =>
      obind (f i) (fun a =>
      obind (collect f items') (fun rest => Ret (a :: rest)))
  end.

End PyMore.

(** ** Bitbucket Cloud: the participant and the lookup by id *)

Module BitbucketMore.

Import PyMore.

(** *** const.py *)

Definition PRP_ROLE_REVIEWER : string := "REVIEWER".
Definition PRP_ROLE_PARTICIPANT : string := "PARTICIPANT".
Definition PRP_CHANGES_REQUESTED : string := "changes_requested".
Definition PRP_APPROVED : string := "approved".

(** *** class Participant *)

Module Participant.

(** The object has no URL of its own, only the embedded document. *)
Record t : Type := mk { data : dict }.

Section Methods.

(** [str.upper], a builtin. *)
Variable upper : string -> string.

Variable absent : string -> outcome pyval.
Variable repr : pyval -> string.

(** Modelled from the spec: the constructor of the base class with the
    expected type tag "participant". The [print] of the keyword arguments
    writes to the standard output only. *)
Definition __init__ (data : dict) : outcome t :=
  match lookup "type" data with
  | Some tag =>
      if eq_str tag "participant" then Ret (mk data)
      else Raise (SchemaMismatch "participant")
  | None => Ret (mk data)
  end.

(** Modelled from the spec: [get_data] of the base class. *)
Definition get_data (self : t) (key : string) : outcome pyval :=
  match lookup key (data self) with
  | Some v => Ret v
  | None => absent key
  end.

Definition is_participant (self : t) : outcome bool :=
  obind (get_data self "role") (fun role =>
  obind (py_upper upper role)
    (fun u => Ret (String.eqb u PRP_ROLE_PARTICIPANT))).

Definition is_reviewer (self : t) : outcome bool :=
  obind (get_data self "role") (fun role =>
  obind (py_upper upper role) (fun u => Ret (String.eqb u PRP_ROLE_REVIEWER))).

Definition has_changes_requested (self : t) : outcome bool :=
  obind (get_data self "state") (fun st =>
  Ret (String.eqb (lower (py_str repr st)) PRP_CHANGES_REQUESTED)).

Definition has_approved (self : t) : outcome bool :=
  obind (get_data self "state") (fun st =>
  Ret (String.eqb (lower (py_str repr st)) PRP_APPROVED)).

Definition approved (self : t) : outcome pyval := get_data self "approved".

End Methods.

End Participant.

(** *** PullRequests.get *)

Module PullRequests.

Section Methods.

Variable url_joiner : string -> pyval -> string.
Variable repr : pyval -> string.

(** The answer of the server to the GET of one document. *)
Variable fetch : list request -> request -> outcome dict.

(** Modelled from the spec: [get(id)] of the base class, a single GET of the
    path [id] under the collection URL, answering the parsed document. *)
Definition base_get (self : Bitbucket.PullRequests.t) (id : pyval)
  : io dict :=
  fun log =>
    let r := mkRequest GET (Bitbucket.PullRequests.url self)
                       (Some (py_str repr id)) [] None None in
    (fetch log r, log ++ [r]).

Definition get (self : Bitbucket.PullRequests.t) (id : pyval)
  : io (option Bitbucket.PullRequest.t) :=
  data <- base_get self id ;;
  lift (Bitbucket.PullRequests.__get_object url_joiner self data).

End Methods.

End PullRequests.

End BitbucketMore.

(** ** Service Desk: request status, request creation, error translation
       and the Insight object types *)

Module ServiceDeskMore.

Import PyMore.

(** A call whose keyword arguments are assembled at run time and passed as
    [**param_map]. *)
Record kwcall : Type := mkCall {
  k_method : http_method;
  k_path : string;
  k_kwargs : dict
}.

(** What [raise_for_status] reads of a response: the status code and what
    [response.json()] gives, the parsed body or an exception. *)
Record response : Type := mkResponse {
  status_code : Z;
  json : outcome pyval
}.

(** How [raise_for_status] ends: it returns, it raises [HTTPError] with the
    message of the server, the library raises its own [HTTPError], or the
    final [raise] finds [error_msg] unbound. *)
Inductive status_check : Type :=
| Passes
| HTTPErrorOf (error_msg : pyval)
| LibraryHTTPError
| UnboundLocalError.

(** The client once [__init__] has run. *)
Record client : Type := mkClient {
  desk : ServiceDesk.t;
  insightworkspaceversion : pyval;
  insight_workspace_id : pyval;
  insight_api_endpoint : string
}.

Section Methods.

Variable repr : pyval -> string.

(** The answer of the server to a request, given the requests before it. *)
Variable server : list request -> request -> outcome pyval.

(** The same for a call with assembled keyword arguments. *)
Variable server_kw : list kwcall -> kwcall -> outcome pyval.

Local Abbreviation get := (ServiceDesk.get server).

(** Modelled from the spec: [put(path, json)] of the REST client. *)
Definition put (self : ServiceDesk.t) (path : string) (data : pyval)
  : io pyval :=
  fun log =>
    let r := mkRequest PUT (ServiceDesk.url self) (Some path) []
                       (Some (ServiceDesk.experimental_headers self))
                       (Some data) in
    (server log r, log ++ [r]).

(** Modelled from the spec: [post(path, **kwargs)] of the REST client. *)
Definition post_kw (path : string) (kwargs : dict)
  : list kwcall -> outcome pyval * list kwcall :=
  fun log =>
    let c := mkCall POST path kwargs in
    (server_kw log c, log ++ [c]).

Definition create_customer_request (self : ServiceDesk.t)
    (service_desk_id request_type_id values_dict : pyval)
    (raise_on_behalf_of request_participants : pyval)
  : list kwcall -> outcome pyval * list kwcall :=
  let data := [("serviceDeskId", service_desk_id);
               ("requestTypeId", request_type_id);
               ("requestFieldValues", values_dict)] in
  let data := if truthy raise_on_behalf_of
              then dict_set "raiseOnBehalfOf" raise_on_behalf_of data
              else data in
  let data := if truthy request_participants
              then dict_set "requestParticipants" request_participants data
              else data in
  let param_map :=
    [("headers", PyDict (ServiceDesk.experimental_headers self))] in
  let param_map :=
    match values_dict with
    | PyDict _ => dict_set "json" (PyDict data) param_map
    | PyStr _ => dict_set "data" (PyDict data) param_map
    | _ => param_map
    end in
  post_kw "rest/servicedeskapi/request" param_map.

Definition get_customer_request_status (self : ServiceDesk.t)
    (issue_id_or_key : string)
  : list request -> xoutcome pyval * list request :=
  fun log =>
    match get self ("rest/servicedeskapi/request/" ++ issue_id_or_key
                    ++ "/status")%string [] log with
    | (Raise e, log') => (XRaise (Std e), log')
    | (Ret request, log') =>
        if ServiceDesk.advanced_mode self then (XRet request, log')
        else
          (if truthy request then
             xbind (xlift (py_get request "values" (PyList []))) (fun vs =>
             if truthy vs then
               xbind (xlift (py_get request "values" (PyList [])))
                 (fun vs' =>
               xbind (py_first vs') (fun first =>
               xlift (py_get first "status" (PyDict []))))
             else XRet (PyDict []))
           else XRet (PyDict []), log')
    end.

(** [Response.raise_for_status] of the requests library raises for the
    client and server error codes. *)
Definition library_raises (r : response) : bool :=
  (400 <=? status_code r)%Z && (status_code r <? 600)%Z.

Definition raise_for_status (r : response) : status_check :=
  if (400 <=? status_code r)%Z && (status_code r <? 600)%Z then
    match obind (json r) (fun j => py_getitem j "errorMessage") with
    | Ret error_msg => HTTPErrorOf error_msg
    | Raise _ =>
        if library_raises r then LibraryHTTPError else UnboundLocalError
    end
  else Passes.

Definition _get_insight_workspace_ids (self : ServiceDesk.t)
  : io (list pyval) :=
  result <- get self "rest/servicedeskapi/insight/workspace" [] ;;
  lift (obind (py_getitem result "values") (fun vs =>
        obind (py_iter vs) (fun items =>
        collect (fun i => py_getitem i "workspaceId") items))).

(** [next(iter(ids))] *)
Definition _get_insight_workspace_id (self : ServiceDesk.t)
  : list request -> xoutcome pyval * list request :=
  fun log =>
    match _get_insight_workspace_ids self log with
    | (Raise e, log') => (XRaise (Std e), log')
    | (Ret [], log') => (XRaise StopIteration, log')
    | (Ret (id :: _), log') => (XRet id, log')
    end.

(** [__init__], run on the client the base class has set up. *)
Definition __init__ (self : ServiceDesk.t) (insightworkspaceversion : pyval)
  : list request -> xoutcome client * list request :=
  fun log =>
    match _get_insight_workspace_id self log with
    | (XRaise e, log') => (XRaise e, log')
    | (XRet id, log') =>
        (XRet (mkClient self insightworkspaceversion id
                 ("gateway/api/jsm/insight/workspace/" ++ py_str repr id
                  ++ "/v" ++ py_str repr insightworkspaceversion
                  ++ "/")%string), log')
    end.

Definition get_insight_object_type (self : client) (type_id : string)
  : io pyval :=
  get (desk self)
      (insight_api_endpoint self ++ "objecttype/" ++ type_id)%string [].

Definition _put_insight_object_type (self : client) (type_id : string)
    (name iconid objectschemaid : pyval)
    (description parentobjecttypeid inherited abstractobjecttype : pyval)
  : io pyval :=
  let data := [("id", PyStr type_id); ("name", name); ("iconId", iconid);
               ("objectSchemaId", objectschemaid)] in
  let data := if negb (is_none description)
              then dict_set "description" description data else data in
  let data := if negb (is_none parentobjecttypeid)
              then dict_set "parentObjectTypeId" parentobjecttypeid data
              else data in
  let data := if negb (is_none inherited)
              then dict_set "inherited" inherited data else data in
  let data := if negb (is_none abstractobjecttype)
              then dict_set "abstractObjectType" abstractobjecttype data
              else data in
  put (desk self)
      (insight_api_endpoint self ++ "objecttype/" ++ type_id)%string
      (PyDict data).

Definition update_insight_object_type (self : client) (type_id : string)
    (name iconid objectschemaid : pyval)
    (description parentobjecttypeid inherited abstractobjecttype : pyval)
  : io pyval :=
  otype <- get_insight_object_type self type_id ;;
  name <- lift (py_or name (py_getitem otype "name")) ;;
  iconid <- lift (py_or iconid
                    (obind (py_getitem otype "icon")
                           (fun icon => py_getitem icon "id"))) ;;
  objectschemaid <- lift (py_or objectschemaid
                            (py_getitem otype "objectSchemaId")) ;;
  _put_insight_object_type self type_id name iconid objectschemaid
    description parentobjecttypeid inherited abstractobjecttype.

End Methods.

End ServiceDeskMore.

(** ** Further notions the statements use *)

Module SpecMore.

Import PyMore.

(** The request [self.delete(path)] of a pull request makes. *)
Definition delete_of (pr : Bitbucket.PullRequest.t) (path : string)
  : request :=
  mkRequest DELETE (Bitbucket.PullRequest.url pr) (Some path) [] None None.

(** The GET of one document under a collection. *)
Definition get_of (self : Bitbucket.PullRequests.t) (path : string)
  : request :=
  mkRequest GET (Bitbucket.PullRequests.url self) (Some path) [] None None.

(** A field that is present when its value is not [None]. *)
Definition unless_none (name : string) (v : pyval) : dict :=
  if is_none v then [] else [(name, v)].

(** A field that is present when its value is true. *)
Definition when_true (name : string) (v : pyval) : dict :=
  if truthy v then [(name, v)] else [].

(** The payload of [create_customer_request]. *)
Definition customer_request_payload
    (service_desk_id request_type_id values_dict : pyval)
    (raise_on_behalf_of request_participants : pyval) : dict :=
  [("serviceDeskId", service_desk_id);
   ("requestTypeId", request_type_id);
   ("requestFieldValues", values_dict)]
  ++ when_true "raiseOnBehalfOf" raise_on_behalf_of
  ++ when_true "requestParticipants" request_participants.

(** The PUT of the Service Desk client. *)
Definition put_of (self : ServiceDesk.t) (path : string) (data : pyval)
  : request :=
  mkRequest PUT (ServiceDesk.url self) (Some path) []
            (Some (ServiceDesk.experimental_headers self)) (Some data).

(** The path of an Insight object type. *)
Definition object_type_path (self : ServiceDeskMore.client)
    (type_id : string) : string :=
  (ServiceDeskMore.insight_api_endpoint self ++ "objecttype/" ++ type_id)
  %string.

(** The body of the PUT of an Insight object type. *)
Definition object_type_body (type_id : string)
    (name iconid objectschemaid : pyval)
    (description parentobjecttypeid inherited abstractobjecttype : pyval)
  : pyval :=
  PyDict ([("id", PyStr type_id); ("name", name); ("iconId", iconid);
           ("objectSchemaId", objectschemaid)]
          ++ unless_none "description" description
          ++ unless_none "parentObjectTypeId" parentobjecttypeid
          ++ unless_none "inherited" inherited
          ++ unless_none "abstractObjectType" abstractobjecttype).

(** The value an argument of [update_insight_object_type] ends up with: the
    argument when it is true, else what is read from the existing type. *)
Definition or_existing (arg : pyval) (existing : outcome pyval)
  : outcome pyval :=
  if truthy arg then Ret arg else existing.

(** A status code in the client or server error range. *)
Definition is_error_status (code : Z) : Prop := (400 <= code < 600)%Z.

End SpecMore.

(** ** Further concrete objects and servers *)

Module ExamplesMore.

Import PyMore Bitbucket Examples.

Definition plain_repr (v : pyval) : string := "<container>".

(** A record without an id and without the error marker. *)
Definition no_id_record : dict := [("type", PyStr "pullrequest")].

(** A server with two pages; the first holds a good record, then a record
    without an id, and points to the second. *)
Definition two_pages (log : list request) (r : request)
  : outcome PullRequests.page :=
  if String.eqb (r_url r) "prs"
  then Ret (PullRequests.mkPage [good_record; no_id_record; good_record]
                                (Some "prs?page=2"))
  else Ret (PullRequests.mkPage [good_record] None).

(** A server that answers every GET of a document with a record of id 1. *)
Definition fetch_good (log : list request) (r : request) : outcome dict :=
  Ret good_record.

Definition null_state_pr : PullRequest.t :=
  PullRequest.mk "prs/9" [("id", PyInt 9); ("state", PyNone)].

(** An open pull request without the close_source_branch field. *)
Definition bare_open_pr : PullRequest.t :=
  PullRequest.mk "prs/8" [("id", PyInt 8); ("state", PyStr "open")].

Definition silent_reviewer : BitbucketMore.Participant.t :=
  BitbucketMore.Participant.mk
    [("type", PyStr "participant"); ("role", PyStr "REVIEWER");
     ("state", PyNone); ("approved", PyBool false)].

(** A server whose status answer lists two statuses. *)
Definition status_server (log : list request) (r : request)
  : outcome pyval :=
  Ret (PyDict [("values",
                PyList [PyDict [("status", PyStr "Waiting for support")];
                        PyDict [("status", PyStr "Open")]])]).

(** A server that lists two Insight workspaces. *)
Definition workspace_server (log : list request) (r : request)
  : outcome pyval :=
  Ret (PyDict [("values",
                PyList [PyDict [("workspaceId", PyStr "w-1")];
                        PyDict [("workspaceId", PyStr "w-2")]])]).

Definition insight : ServiceDeskMore.client :=
  ServiceDeskMore.mkClient (desk false) (PyInt 1) (PyStr "w-1")
    "gateway/api/jsm/insight/workspace/w-1/v1/".

Definition server_type : pyval :=
  PyDict [("id", PyStr "12"); ("name", PyStr "Server");
          ("icon", PyDict [("id", PyStr "5")]);
          ("objectSchemaId", PyStr "3")].

(** A server that answers every request with the object type above. *)
Definition type_server (log : list request) (r : request) : outcome pyval :=
  Ret server_type.

(** A server whose object type has no icon. *)
Definition iconless_server (log : list request) (r : request)
  : outcome pyval :=
  Ret (PyDict [("id", PyStr "12"); ("name", PyStr "Server")]).

Definition echo_kw (log : list ServiceDeskMore.kwcall)
    (c : ServiceDeskMore.kwcall) : outcome pyval :=
  Ret (PyDict (ServiceDeskMore.k_kwargs c)).

End ExamplesMore.

(** ** Pull request objects *)

Section PullRequestFacts.

Import Bitbucket Spec.

Variable upper : string -> string.
Variable absent : string -> outcome pyval.
Variable send : list request -> request -> outcome pyval.

Local Abbreviation is_open := (PullRequest.is_open upper absent).
Local Abbreviation is_merged := (PullRequest.is_merged upper absent).
Local Abbreviation is_declined := (PullRequest.is_declined upper absent).
Local Abbreviation is_superseded := (PullRequest.is_superseded upper absent).
Local Abbreviation _check_if_open := (PullRequest._check_if_open upper absent).
Local Abbreviation comment := (PullRequest.comment send).
Local Abbreviation approve := (PullRequest.approve upper absent send).
Local Abbreviation unapprove := (PullRequest.unapprove upper absent send).
Local Abbreviation decline := (PullRequest.decline upper absent send).
Local Abbreviation merge := (PullRequest.merge upper absent send).

Implicit Types (pr : PullRequest.t) (s : string) (log : list request).

Lemma state_predicates pr s :
  lookup "state" (PullRequest.data pr) = Some (PyStr s) ->
  is_open pr = Ret (String.eqb (upper s) PR_STATE_OPEN)
  /\ is_merged pr = Ret (String.eqb (upper s) PR_STATE_MERGED)
  /\ is_declined pr = Ret (String.eqb (upper s) PR_STATE_DECLINED)
  /\ is_superseded pr = Ret (String.eqb (upper s) PR_STATE_SUPERSEDED).
Proof.
  intros Hst.
  unfold PullRequest.is_open, PullRequest.is_merged, PullRequest.is_declined,
    PullRequest.is_superseded, PullRequest.get_data.
  rewrite Hst. simpl. repeat split.
Qed.

Lemma check_when_closed pr s log :
  lookup "state" (PullRequest.data pr) = Some (PyStr s) ->
  upper s <> PR_STATE_OPEN ->
  _check_if_open pr log = (Raise not_open_error, log).
Proof.
  intros Hst Hne.
  destruct (state_predicates pr s Hst) as [Ho _].
  unfold PullRequest._check_if_open, bind, lift. rewrite Ho.
  apply String.eqb_neq in Hne. rewrite Hne. reflexivity.
Qed.

Lemma check_when_open pr s log :
  lookup "state" (PullRequest.data pr) = Some (PyStr s) ->
  upper s = PR_STATE_OPEN ->
  _check_if_open pr log = (Ret tt, log).
Proof.
  intros Hst He.
  destruct (state_predicates pr s Hst) as [Ho _].
  unfold PullRequest._check_if_open, bind, lift. rewrite Ho.
  apply String.eqb_eq in He. rewrite He. reflexivity.
Qed.

(** An open pull request, a valid strategy and a false
    [close_source_branch] argument: the cached flag is sent. *)
Lemma merge_sends_cached_flag pr s flag strategy (close : option pyval) log :
  lookup "state" (PullRequest.data pr) = Some (PyStr s) ->
  upper s = PR_STATE_OPEN ->
  lookup "close_source_branch" (PullRequest.data pr) = Some flag ->
  in_strs (match strategy with Some v => v | None => PyStr PR_MERGE_COMMIT end)
          PR_MERGE_STRATEGIES = true ->
  truthy (match close with Some v => v | None => PyNone end) = false ->
  merge pr strategy close log =
    let r := post_of pr "merge"
               (Some (merge_body flag
                  (match strategy with
                   | Some v => v
                   | None => PyStr PR_MERGE_COMMIT
                   end))) in
    (send log r, log ++ [r]).
Proof.
  intros Hst Hopen Hflag Hin Hfalse.
  unfold PullRequest.merge, bind at 1.
  rewrite (check_when_open pr s log Hst Hopen).
  rewrite Hin. simpl negb. cbv iota.
  unfold bind, lift, py_or. rewrite Hfalse.
  unfold PullRequest.close_source_branch, PullRequest.get_data.
  rewrite Hflag. reflexivity.
Qed.

Lemma app_one_neq {A} (l : list A) (x : A) : l ++ [x] <> l.
Proof.
  intros H. apply (f_equal (@length A)) in H.
  rewrite length_app in H. simpl in H. lia.
Qed.


(** C6. For a pull request whose state is a string that, upper-cased by
    str.upper (the parameter [upper], with its Unicode case rules), is none
    of OPEN, MERGED, DECLINED, SUPERSEDED, each of the four predicates
    returns false, and none raises. *)
Theorem unknown_state_all_predicates_false pr s :
  lookup "state" (PullRequest.data pr) = Some (PyStr s) ->
  ~ In (upper s) PR_STATES ->
  is_open pr = Ret false /\ is_merged pr = Ret false
  /\ is_declined pr = Ret false /\ is_superseded pr = Ret false.
Proof.
  intros Hst Hnot.
  destruct (state_predicates pr s Hst) as (Ho & Hm & Hd & Hs).
  rewrite Ho, Hm, Hd, Hs.
  repeat split; f_equal; apply String.eqb_neq; intros H; apply Hnot;
    simpl; rewrite <- H; auto.
Qed.

(** C3. For a pull request whose cached state is a string other than OPEN
    (after upper-casing), approve, unapprove, decline and merge (with any
    arguments) raise the "isn't open" exception and leave the request log
    as it was: no POST or DELETE is issued. *)
Theorem closed_pull_request_actions_fail_fast pr s log :
  lookup "state" (PullRequest.data pr) = Some (PyStr s) ->
  upper s <> PR_STATE_OPEN ->
  approve pr log = (Raise not_open_error, log)
  /\ unapprove pr log = (Raise not_open_error, log)
  /\ decline pr log = (Raise not_open_error, log)
  /\ forall strategy close,
       merge pr strategy close log = (Raise not_open_error, log).
Proof.
  intros Hst Hne.
  pose proof (check_when_closed pr s log Hst Hne) as Hc.
  unfold PullRequest.approve, PullRequest.unapprove, PullRequest.decline,
    PullRequest.merge, bind.
  rewrite Hc. repeat split.
Qed.

(** C2, amended. A merge strategy outside merge_commit, squash, fast_forward
    makes merge fail without a request; the error is the invalid-argument
    one (ValueError) when the cached state is OPEN, and the "isn't open"
    exception otherwise, since the state is checked first. *)
Theorem merge_invalid_strategy_after_state_check
    pr s strategy (close : option pyval) log :
  lookup "state" (PullRequest.data pr) = Some (PyStr s) ->
  in_strs strategy PR_MERGE_STRATEGIES = false ->
  merge pr (Some strategy) close log =
    (Raise (if String.eqb (upper s) PR_STATE_OPEN
            then bad_strategy_error else not_open_error), log).
Proof.
  intros Hst Hbad.
  destruct (String.eqb (upper s) PR_STATE_OPEN) eqn:E.
  - apply String.eqb_eq in E.
    unfold PullRequest.merge, bind.
    rewrite (check_when_open pr s log Hst E), Hbad. reflexivity.
  - apply String.eqb_neq in E.
    unfold PullRequest.merge, bind.
    rewrite (check_when_closed pr s log Hst E). reflexivity.
Qed.

(** C4. For a message that is None or a string, comment raises ValueError
    with the log unchanged exactly when the message is None or empty; any
    other message makes exactly one POST to "comments" with the body
    {"content": {"raw": message}}, whatever the document's state. *)
Theorem comment_rejects_exactly_empty_messages pr (message : pyval) log :
  is_message message ->
  ((exists msg, comment pr message log = (Raise (ValueError msg), log))
     <-> empty_message message)
  /\ (~ empty_message message ->
      comment pr message log =
        let r := post_of pr "comments"
                   (Some (PyDict [("content", PyDict [("raw", message)])])) in
        (send log r, log ++ [r])).
Proof.
  intros [->|[m ->]].
  - split.
    + split; [intros _; left; reflexivity|].
      intros _. exists "No message set". reflexivity.
    + intros H. exfalso. apply H. left. reflexivity.
  - destruct (String.eqb m EmptyString) eqn:E.
    + apply String.eqb_eq in E. subst m. split.
      * split; [intros _; right; reflexivity|].
        intros _. exists "No message set". reflexivity.
      * intros H. exfalso. apply H. right. reflexivity.
    + assert (Hrun : comment pr (PyStr m) log =
        let r := post_of pr "comments"
                   (Some (PyDict [("content", PyDict [("raw", PyStr m)])])) in
        (send log r, log ++ [r])).
      { unfold PullRequest.comment, truthy. rewrite E. reflexivity. }
      split; [|intros _; exact Hrun].
      split.
      * intros [msg H]. rewrite Hrun in H. simpl in H.
        exfalso. apply (app_one_neq log (post_of pr "comments"
          (Some (PyDict [("content", PyDict [("raw", PyStr m)])])))).
        congruence.
      * intros [H|H]; [discriminate|].
        apply String.eqb_neq in E. congruence.
Qed.

(** C7. For an open pull request, merge called without close_source_branch
    makes one POST to "merge" whose body carries the cached
    close_source_branch flag; its merge_strategy is "merge_commit" when no
    strategy is given, and the given strategy when a valid one is. *)
Theorem merge_defaults_to_cached_flag pr s flag log :
  lookup "state" (PullRequest.data pr) = Some (PyStr s) ->
  upper s = PR_STATE_OPEN ->
  lookup "close_source_branch" (PullRequest.data pr) = Some flag ->
  merge pr None None log =
    (let r := post_of pr "merge"
                (Some (merge_body flag (PyStr PR_MERGE_COMMIT))) in
     (send log r, log ++ [r]))
  /\ forall strategy,
       in_strs strategy PR_MERGE_STRATEGIES = true ->
       merge pr (Some strategy) None log =
         let r := post_of pr "merge" (Some (merge_body flag strategy)) in
         (send log r, log ++ [r]).
Proof.
  intros Hst Hopen Hflag. split.
  - apply (merge_sends_cached_flag pr s flag None None log); auto.
  - intros strategy Hin.
    apply (merge_sends_cached_flag pr s flag (Some strategy) None log); auto.
Qed.

(** C9. For an open pull request, merge called with close_source_branch set
    to False makes one POST to "merge" whose body carries the cached
    close_source_branch flag, not the caller's False. *)
Theorem merge_explicit_false_uses_cached_flag pr s flag log :
  lookup "state" (PullRequest.data pr) = Some (PyStr s) ->
  upper s = PR_STATE_OPEN ->
  lookup "close_source_branch" (PullRequest.data pr) = Some flag ->
  merge pr None (Some (PyBool false)) log =
    (let r := post_of pr "merge"
                (Some (merge_body flag (PyStr PR_MERGE_COMMIT))) in
     (send log r, log ++ [r]))
  /\ forall strategy,
       in_strs strategy PR_MERGE_STRATEGIES = true ->
       merge pr (Some strategy) (Some (PyBool false)) log =
         let r := post_of pr "merge" (Some (merge_body flag strategy)) in
         (send log r, log ++ [r]).
Proof.
  intros Hst Hopen Hflag. split.
  - apply (merge_sends_cached_flag pr s flag None (Some (PyBool false)) log);
      auto.
  - intros strategy Hin.
    apply (merge_sends_cached_flag pr s flag (Some strategy)
             (Some (PyBool false)) log); auto.
Qed.

End PullRequestFacts.

(** ** The pull request collection *)

Section PullRequestsFacts.

Import Bitbucket Spec.
Import PullRequests.

Variable url_joiner : string -> pyval -> string.
Variable get_page : list request -> request -> outcome page.

Local Abbreviation __get_object := (PullRequests.__get_object url_joiner).
Local Abbreviation each_loop := (PullRequests.each_loop url_joiner).
Local Abbreviation _get_paged := (PullRequests._get_paged get_page).
Local Abbreviation each := (PullRequests.each url_joiner get_page).
Local Abbreviation item_for := (Spec.item_for url_joiner).

Implicit Types (self : PullRequests.t) (d : dict) (log : list request).

Lemma get_object_error_marker self d :
  error_marker d = true -> __get_object self d = Ret None.
Proof.
  unfold error_marker, PullRequests.__get_object. intros ->. reflexivity.
Qed.

Lemma get_object_well_formed self d :
  well_formed d = true ->
  exists id, lookup "id" d = Some id
    /\ __get_object self d =
         Ret (Some (wrapped (url_joiner (url self) id) d)).
Proof.
  unfold well_formed, PullRequests.__get_object, PullRequest.__init__.
  intros H. apply andb_prop in H as [H Htag]. apply andb_prop in H as [He Hid].
  apply negb_true_iff in He. rewrite He.
  destruct (lookup "id" d) as [id|]; [|discriminate].
  exists id. split; [reflexivity|].
  destruct (lookup "type" d) as [tag|]; [rewrite Htag|]; reflexivity.
Qed.

Lemma get_object_acceptable self d :
  acceptable d = true -> __get_object self d = Ret (item_for self d).
Proof.
  unfold acceptable, Spec.item_for. intros H.
  destruct (error_marker d) eqn:E.
  - apply get_object_error_marker. exact E.
  - simpl in H. destruct (get_object_well_formed self d H) as (id & Hid & Hw).
    rewrite Hid. exact Hw.
Qed.

Lemma each_loop_acceptable self (evs : list (event dict)) (st : stop) :
  Forall (fun d => acceptable d = true) (yielded evs) ->
  each_loop self evs st = (map_yield (item_for self) evs, st).
Proof.
  induction evs as [|[r|d] evs IH]; intros Hall; simpl.
  - reflexivity.
  - rewrite (IH Hall). reflexivity.
  - simpl in Hall. inversion Hall as [|? ? Hd Hrest]; subst.
    rewrite (get_object_acceptable self d Hd), (IH Hrest). reflexivity.
Qed.

Lemma yielded_map_yield {A B} (f : A -> B) (evs : list (event A)) :
  yielded (map_yield f evs) = map f (yielded evs).
Proof.
  induction evs as [|[r|a] evs IH]; simpl; [reflexivity|exact IH|].
  f_equal. exact IH.
Qed.

Lemma requested_map_yield {A B} (f : A -> B) (evs : list (event A)) :
  requested (map_yield f evs) = requested evs.
Proof.
  induction evs as [|[r|a] evs IH]; simpl; [reflexivity| |exact IH].
  f_equal. exact IH.
Qed.

Lemma each_params_built (q sort : pyval) :
  (let params := [] in
   let params := if negb (is_none sort) then dict_set "sort" sort params
                 else params in
   if negb (is_none q) then dict_set "q" q params else params)
  = each_params q sort.
Proof.
  unfold each_params.
  destruct (is_none sort), (is_none q); reflexivity.
Qed.

Lemma each_unfolded fuel self (q sort : pyval) log :
  each fuel self q sort log =
    each_loop self (fst (_get_paged fuel self None (each_params q sort) log))
                   (snd (_get_paged fuel self None (each_params q sort) log)).
Proof.
  unfold PullRequests.each. rewrite each_params_built.
  destruct (_get_paged fuel self None (each_params q sort) log).
  reflexivity.
Qed.

Lemma single_page_paged fuel self (params : dict) log (pg : page) :
  get_page log (mkRequest GET (url self) None params None None) = Ret pg ->
  next pg = None ->
  _get_paged (S fuel) self None params log =
    (Req (mkRequest GET (url self) None params None None)
       :: map Yield (values pg), Exhausted).
Proof.
  intros Hpg Hnext. unfold PullRequests._get_paged. simpl.
  rewrite Hpg, Hnext. reflexivity.
Qed.

(** How [each] runs as the code stands. Whenever every record the paging
    delivers is an error marker or a well-formed record, [each] issues the
    same requests and yields one item per record, in order: the wrapped
    pull request for a well-formed record, and for an error marker the
    None that [__get_object] returns, which [each] does not filter out. *)
Theorem each_yields_none_for_error_marker fuel self (q sort : pyval) log :
  let paged := _get_paged fuel self None (each_params q sort) log in
  Forall (fun d => acceptable d = true) (yielded (fst paged)) ->
  each fuel self q sort log = (map_yield (item_for self) (fst paged), snd paged)
  /\ yielded (fst (each fuel self q sort log))
       = map (item_for self) (yielded (fst paged))
  /\ (forall d, error_marker d = true -> item_for self d = None)
  /\ (forall w e,
        well_formed w = true -> error_marker e = true ->
        let first := mkRequest GET (url self) None (each_params q sort)
                               None None in
        get_page log first = Ret (mkPage [w; e] None) ->
        exists id, lookup "id" w = Some id
          /\ each (S fuel) self q sort log
               = ([Req first;
                   Yield (Some (wrapped (url_joiner (url self) id) w));
                   Yield None], Exhausted)).
Proof.
  intros paged Hall.
  assert (Heach : each fuel self q sort log
                  = (map_yield (item_for self) (fst paged), snd paged)).
  { rewrite each_unfolded. apply each_loop_acceptable. exact Hall. }
  split; [exact Heach|].
  split; [rewrite Heach; apply yielded_map_yield|].
  split.
  - intros d Hd. unfold Spec.item_for. rewrite Hd. reflexivity.
  - intros w e Hw He first Hpage.
    destruct (get_object_well_formed self w Hw) as (id & Hid & Hobj).
    exists id. split; [exact Hid|].
    rewrite each_unfolded.
    rewrite (single_page_paged fuel self _ log _ Hpage eq_refl).
    simpl. rewrite Hobj, (get_object_error_marker self e He). reflexivity.
Qed.

End PullRequestsFacts.

(** ** The Service Desk client *)

Section ServiceDeskFacts.

Import Spec.
Import ServiceDesk.

Variable int_of_str : string -> outcome Z.
Variable server : list request -> request -> outcome pyval.

Local Abbreviation set_start_limit :=
  (ServiceDesk.set_start_limit int_of_str).
Local Abbreviation get := (ServiceDesk.get server).
Local Abbreviation get_service_desks :=
  (ServiceDesk.get_service_desks server).
Local Abbreviation get_my_customer_requests :=
  (ServiceDesk.get_my_customer_requests server).
Local Abbreviation get_request_participants :=
  (ServiceDesk.get_request_participants int_of_str server).
Local Abbreviation get_organisations :=
  (ServiceDesk.get_organisations int_of_str server).
Local Abbreviation get_users_in_organization :=
  (ServiceDesk.get_users_in_organization int_of_str server).
Local Abbreviation get_sla := (ServiceDesk.get_sla int_of_str server).
Local Abbreviation get_approvals :=
  (ServiceDesk.get_approvals int_of_str server).
Local Abbreviation get_customers :=
  (ServiceDesk.get_customers int_of_str server).
Local Abbreviation get_queues := (ServiceDesk.get_queues int_of_str server).
Local Abbreviation get_issues_in_queue :=
  (ServiceDesk.get_issues_in_queue int_of_str server).

Implicit Types (self : ServiceDesk.t) (log : list request).

Lemma set_start_limit_ints (start limit : pyval) :
  opt_int start -> opt_int limit ->
  set_start_limit start limit [] = Ret (paging_params start limit).
Proof.
  intros [->|[n ->]] [->|[m ->]]; reflexivity.
Qed.

Lemma get_runs self (path : string) (params : dict) log :
  get self path params log
    = (server log (desk_request self path params),
       log ++ [desk_request self path params]).
Proof. reflexivity. Qed.

(** One GET, then the unwrapping step, which issues nothing. *)
Lemma get_then_unwrap self (path : string) (params : dict) log :
  snd ((response <- get self path params ;;
        if advanced_mode self then ret response
        else lift (values_of response)) log)
    = log ++ [desk_request self path params].
Proof.
  unfold bind. rewrite get_runs.
  destruct (server log (desk_request self path params)) as [resp|e];
    [|reflexivity].
  destruct (advanced_mode self); reflexivity.
Qed.

Lemma unwrap_result self (path : string) (params : dict) log response :
  server log (desk_request self path params) = Ret response ->
  unwrapped (advanced_mode self) response
    (fst ((response <- get self path params ;;
           if advanced_mode self then ret response
           else lift (values_of response)) log)).
Proof.
  intros Hresp. unfold bind. rewrite get_runs, Hresp.
  unfold unwrapped.
  destruct (advanced_mode self); simpl.
  - repeat split; intros; discriminate.
  - split; [intros; discriminate|]. split.
    + intros _ Hfalse. unfold values_of. rewrite Hfalse. reflexivity.
    + intros _ d ->. unfold values_of.
      destruct d as [|kv d]; reflexivity.
Qed.

Lemma forwarded_cases (name : string) (v : pyval) :
  paging_arg int_of_str v ->
  (is_none v = true /\ forwarded int_of_str name v = [])
  \/ exists n,
       is_none v = false
       /\ ServiceDesk.py_int int_of_str v = Ret n
       /\ forwarded int_of_str name v = [(name, PyInt n)].
Proof.
  intros [->|[n Hn]]; [left; split; reflexivity|].
  right. exists n. unfold forwarded.
  destruct v as [|[|]|m|t| |]; simpl in Hn |- *; try discriminate Hn.
  - injection Hn as <-. repeat split.
  - injection Hn as <-. repeat split.
  - injection Hn as <-. repeat split.
  - destruct (int_of_str t) as [k|e]; [|discriminate Hn].
    injection Hn as <-. repeat split.
Qed.

Lemma set_start_limit_converts (start limit : pyval) :
  paging_arg int_of_str start -> paging_arg int_of_str limit ->
  set_start_limit start limit []
    = Ret (forwarded_params int_of_str start limit).
Proof.
  intros Hs Hl.
  destruct (forwarded_cases "start" start Hs)
    as [[Ns Fs]|(n & Ns & Is & Fs)];
  destruct (forwarded_cases "limit" limit Hl)
    as [[Nl Fl]|(m & Nl & Il & Fl)];
  unfold ServiceDesk.set_start_limit, forwarded_params;
  rewrite Ns, Nl, Fs, Fl, ?Is; simpl; rewrite ?Il; reflexivity.
Qed.

Lemma set_start_limit_converts_after (start limit : pyval) (k : string)
    (v : pyval) :
  paging_arg int_of_str start -> paging_arg int_of_str limit ->
  String.eqb k "start" = false -> String.eqb k "limit" = false ->
  set_start_limit start limit [(k, v)]
    = Ret ((k, v) :: forwarded_params int_of_str start limit).
Proof.
  intros Hs Hl Ks Kl.
  destruct (forwarded_cases "start" start Hs)
    as [[Ns Fs]|(n & Ns & Is & Fs)];
  destruct (forwarded_cases "limit" limit Hl)
    as [[Nl Fl]|(m & Nl & Il & Fl)];
  unfold ServiceDesk.set_start_limit, forwarded_params;
  rewrite Ns, Nl, Fs, Fl, ?Is; simpl; rewrite ?Il; simpl;
  rewrite ?Ks, ?Kl; simpl; rewrite ?Ks, ?Kl; reflexivity.
Qed.

Lemma query_after_forwarded (start limit query : pyval) :
  paging_arg int_of_str start -> paging_arg int_of_str limit ->
  is_none query = false ->
  dict_set "query" query (forwarded_params int_of_str start limit)
    = forwarded_params int_of_str start limit ++ [("query", query)].
Proof.
  intros Hs Hl _.
  destruct (forwarded_cases "start" start Hs)
    as [[Ns Fs]|(n & Ns & Is & Fs)];
  destruct (forwarded_cases "limit" limit Hl)
    as [[Nl Fl]|(m & Nl & Il & Fl)];
  unfold forwarded_params; rewrite Fs, Fl; reflexivity.
Qed.

(** C8. With [start] and [limit] each None or a value that int() converts
    (an int, True or False, a string that parses), every list method
    taking them appends exactly one GET to the request log, whatever the
    server answers. Its query parameters carry "start" and "limit" as the
    ints that int() gives (1 for True, the parsed number for a string)
    when they are not None, and nothing for a None. *)
Theorem paged_list_methods_issue_one_get self (start limit : pyval) log :
  paging_arg int_of_str start -> paging_arg int_of_str limit ->
  (forall id,
     snd (get_request_participants self id start limit log)
     = log ++ [desk_request self
                 ("rest/servicedeskapi/request/" ++ id ++ "/participant")
                 (forwarded_params int_of_str start limit)])
  /\ (forall sd,
     snd (get_organisations self sd start limit log)
     = log ++ [desk_request self
                 (match sd with
                  | None => "rest/servicedeskapi/organization"
                  | Some id =>
                      "rest/servicedeskapi/servicedesk/" ++ id
                      ++ "/organization"
                  end)
                 (forwarded_params int_of_str start limit)])
  /\ (forall id,
     snd (get_users_in_organization self id start limit log)
     = log ++ [desk_request self
                 ("rest/servicedeskapi/organization/" ++ id ++ "/user")
                 (forwarded_params int_of_str start limit)])
  /\ (forall id,
     snd (get_sla self id start limit log)
     = log ++ [desk_request self
                 ("rest/servicedeskapi/request/" ++ id ++ "/sla")
                 (forwarded_params int_of_str start limit)])
  /\ (forall id,
     snd (get_approvals self id start limit log)
     = log ++ [desk_request self
                 ("rest/servicedeskapi/request/" ++ id ++ "/approval")
                 (forwarded_params int_of_str start limit)])
  /\ (forall id query,
     snd (get_customers self id query start limit log)
     = log ++ [desk_request self
                 ("rest/servicedeskapi/servicedesk/" ++ id ++ "/customer")
                 (forwarded_params int_of_str start limit
                  ++ (if is_none query then [] else [("query", query)]))])
  /\ (forall id include_count,
     snd (get_queues self id include_count start limit log)
     = log ++ [desk_request self
                 ("rest/servicedeskapi/servicedesk/" ++ id ++ "/queue")
                 ((if is_none include_count then []
                   else [("includeCount", PyBool (truthy include_count))])
                  ++ forwarded_params int_of_str start limit)])
  /\ (forall id queue,
     snd (get_issues_in_queue self id queue start limit log)
     = log ++ [desk_request self
                 ("rest/servicedeskapi/servicedesk/" ++ id ++ "/queue/"
                  ++ queue ++ "/issue")
                 (forwarded_params int_of_str start limit)]).
Proof.
  intros Hs Hl.
  pose proof (set_start_limit_converts start limit Hs Hl) as Hp.
  repeat match goal with |- _ /\ _ => split end; intros.
  - unfold ServiceDesk.get_request_participants, bind at 1, lift.
    rewrite Hp. apply get_then_unwrap.
  - unfold ServiceDesk.get_organisations, bind, lift. rewrite Hp.
    destruct sd; reflexivity.
  - unfold ServiceDesk.get_users_in_organization, bind, lift. rewrite Hp.
    reflexivity.
  - unfold ServiceDesk.get_sla, bind at 1, lift.
    rewrite Hp. apply get_then_unwrap.
  - unfold ServiceDesk.get_approvals, bind at 1, lift.
    rewrite Hp. apply get_then_unwrap.
  - unfold ServiceDesk.get_customers, bind, lift. rewrite Hp.
    destruct (is_none query) eqn:Hq; simpl.
    + rewrite app_nil_r. reflexivity.
    + rewrite (query_after_forwarded start limit query Hs Hl Hq).
      reflexivity.
  - unfold ServiceDesk.get_queues, bind, lift.
    destruct (is_none include_count); cbn [negb dict_set].
    + rewrite Hp. reflexivity.
    + rewrite (set_start_limit_converts_after start limit "includeCount" _
                 Hs Hl eq_refl eq_refl).
      reflexivity.
  - unfold ServiceDesk.get_issues_in_queue, bind, lift. rewrite Hp.
    reflexivity.
Qed.

(** C10. With [start] and [limit] each None or an int, and the server
    answering a response to the one GET a method makes: get_service_desks,
    get_my_customer_requests, get_request_participants, get_sla and
    get_approvals return that response unchanged in advanced mode; otherwise
    they return None for a false response (None, empty) and the "values"
    field of a mapping (None when it has none), without raising. *)
Theorem list_methods_unwrap_values self (id : string) (start limit : pyval)
    log :
  opt_int start -> opt_int limit ->
  (forall response,
     server log (desk_request self "rest/servicedeskapi/servicedesk" [])
       = Ret response ->
     unwrapped (advanced_mode self) response
       (fst (get_service_desks self log)))
  /\ (forall response,
     server log (desk_request self "rest/servicedeskapi/request" [])
       = Ret response ->
     unwrapped (advanced_mode self) response
       (fst (get_my_customer_requests self log)))
  /\ (forall response,
     server log (desk_request self
                   ("rest/servicedeskapi/request/" ++ id ++ "/participant")
                   (paging_params start limit)) = Ret response ->
     unwrapped (advanced_mode self) response
       (fst (get_request_participants self id start limit log)))
  /\ (forall response,
     server log (desk_request self
                   ("rest/servicedeskapi/request/" ++ id ++ "/sla")
                   (paging_params start limit)) = Ret response ->
     unwrapped (advanced_mode self) response
       (fst (get_sla self id start limit log)))
  /\ (forall response,
     server log (desk_request self
                   ("rest/servicedeskapi/request/" ++ id ++ "/approval")
                   (paging_params start limit)) = Ret response ->
     unwrapped (advanced_mode self) response
       (fst (get_approvals self id start limit log))).
Proof.
  intros Hs Hl.
  pose proof (set_start_limit_ints start limit Hs Hl) as Hp.
  repeat match goal with |- _ /\ _ => split end; intros response Hresp.
  - apply (unwrap_result self _ [] log response Hresp).
  - apply (unwrap_result self _ [] log response Hresp).
  - unfold ServiceDesk.get_request_participants, bind at 1, lift.
    rewrite Hp. apply (unwrap_result self _ _ log response Hresp).
  - unfold ServiceDesk.get_sla, bind at 1, lift.
    rewrite Hp. apply (unwrap_result self _ _ log response Hresp).
  - unfold ServiceDesk.get_approvals, bind at 1, lift.
    rewrite Hp. apply (unwrap_result self _ _ log response Hresp).
Qed.

End ServiceDeskFacts.

(** ** The statements at concrete objects *)

Section Instances.

Import Bitbucket Spec Examples.


(** C6 at a pull request whose state is "draft", an ASCII string, on which
    str.upper is [ascii_upper]. *)
Lemma unknown_state_all_predicates_false_witness :
  lookup "state" (PullRequest.data odd_pr) = Some (PyStr "draft")
  /\ ~ In (ascii_upper "draft") PR_STATES
  /\ PullRequest.is_open ascii_upper absent_keyerror odd_pr = Ret false
  /\ PullRequest.is_merged ascii_upper absent_keyerror odd_pr = Ret false
  /\ PullRequest.is_declined ascii_upper absent_keyerror odd_pr = Ret false
  /\ PullRequest.is_superseded ascii_upper absent_keyerror odd_pr = Ret false.
Proof.
  assert (Hnot : ~ In (ascii_upper "draft") PR_STATES).
  { simpl. intros [H|[H|[H|[H|[]]]]]; discriminate H. }
  split; [reflexivity|]. split; [exact Hnot|].
  apply (unknown_state_all_predicates_false ascii_upper
      absent_keyerror odd_pr "draft");
    [reflexivity | exact Hnot].
Defined.

(** C3 at a merged pull request and an empty log. *)
Lemma closed_pull_request_actions_fail_fast_witness :
  lookup "state" (PullRequest.data merged_pr) = Some (PyStr "MERGED")
  /\ ascii_upper "MERGED" <> PR_STATE_OPEN
  /\ PullRequest.approve ascii_upper absent_keyerror ok_server merged_pr []
     = (Raise not_open_error, [])
  /\ PullRequest.unapprove ascii_upper absent_keyerror ok_server merged_pr []
     = (Raise not_open_error, [])
  /\ PullRequest.decline ascii_upper absent_keyerror ok_server merged_pr []
     = (Raise not_open_error, [])
  /\ forall strategy close,
       PullRequest.merge ascii_upper
           absent_keyerror ok_server merged_pr strategy close []
       = (Raise not_open_error, []).
Proof.
  assert (Hne : ascii_upper "MERGED" <> PR_STATE_OPEN) by (simpl; discriminate).
  split; [reflexivity|]. split; [exact Hne|].
  apply (closed_pull_request_actions_fail_fast ascii_upper
      absent_keyerror ok_server
           merged_pr "MERGED" []); [reflexivity | exact Hne].
Defined.

(** C2 as stated fails: on a merged pull request, merge with the strategy
    "invalid" raises the "isn't open" exception, not a ValueError. *)
Lemma merge_invalid_strategy_on_merged_pr :
  in_strs (PyStr "invalid") PR_MERGE_STRATEGIES = false
  /\ PullRequest.merge ascii_upper absent_keyerror ok_server merged_pr
       (Some (PyStr "invalid")) None []
     = (Raise (Exception "Pull Request isn't open"), [])
  /\ ~ exists msg,
         PullRequest.merge ascii_upper absent_keyerror ok_server merged_pr
           (Some (PyStr "invalid")) None []
         = (Raise (ValueError msg), []).
Proof.
  split; [reflexivity|]. split; [reflexivity|].
  intros [msg H]. discriminate H.
Qed.

(** C2, amended, at an open pull request: the ValueError, and no request. *)
Lemma merge_invalid_strategy_after_state_check_witness :
  lookup "state" (PullRequest.data open_pr) = Some (PyStr "OPEN")
  /\ in_strs (PyStr "invalid") PR_MERGE_STRATEGIES = false
  /\ PullRequest.merge ascii_upper absent_keyerror ok_server open_pr
       (Some (PyStr "invalid")) None []
     = (Raise bad_strategy_error, []).
Proof.
  split; [reflexivity|]. split; [reflexivity|].
  apply (merge_invalid_strategy_after_state_check ascii_upper
      absent_keyerror ok_server
           open_pr "OPEN" (PyStr "invalid") None []); reflexivity.
Defined.

(** C4 at the message "lgtm" on a merged pull request: one POST. *)
Lemma comment_rejects_exactly_empty_messages_witness :
  is_message (PyStr "lgtm")
  /\ PullRequest.comment ok_server merged_pr (PyStr "lgtm") []
     = (Ret (PyDict []),
        [mkRequest POST "prs/7" (Some "comments") [] None
           (Some (PyDict [("content", PyDict [("raw", PyStr "lgtm")])]))]).
Proof.
  assert (Hm : is_message (PyStr "lgtm")).
  { right. exists "lgtm". reflexivity. }
  split; [exact Hm|].
  apply (proj2 (comment_rejects_exactly_empty_messages ok_server merged_pr
                  (PyStr "lgtm") [] Hm)).
  intros [H|H]; discriminate H.
Defined.

(** C7 at an open pull request whose cached flag is True. *)
Lemma merge_defaults_to_cached_flag_witness :
  lookup "state" (PullRequest.data open_pr) = Some (PyStr "OPEN")
  /\ ascii_upper "OPEN" = PR_STATE_OPEN
  /\ lookup "close_source_branch" (PullRequest.data open_pr)
     = Some (PyBool true)
  /\ PullRequest.merge ascii_upper
      absent_keyerror ok_server open_pr None None []
     = (Ret (PyDict []),
        [mkRequest POST "prs/7" (Some "merge") [] None
           (Some (PyDict [("close_source_branch", PyBool true);
                          ("merge_strategy", PyStr "merge_commit")]))]).
Proof.
  split; [reflexivity|]. split; [reflexivity|]. split; [reflexivity|].
  apply (proj1 (merge_defaults_to_cached_flag ascii_upper
      absent_keyerror ok_server
                  open_pr "OPEN" (PyBool true) []
                  eq_refl eq_refl eq_refl)).
Defined.

(** C9 at an open pull request whose cached flag is True: the body says
    True although the caller passed False. *)
Lemma merge_explicit_false_uses_cached_flag_witness :
  lookup "state" (PullRequest.data open_pr) = Some (PyStr "OPEN")
  /\ ascii_upper "OPEN" = PR_STATE_OPEN
  /\ lookup "close_source_branch" (PullRequest.data open_pr)
     = Some (PyBool true)
  /\ PullRequest.merge ascii_upper absent_keyerror ok_server open_pr None
       (Some (PyBool false)) []
     = (Ret (PyDict []),
        [mkRequest POST "prs/7" (Some "merge") [] None
           (Some (PyDict [("close_source_branch", PyBool true);
                          ("merge_strategy", PyStr "merge_commit")]))]).
Proof.
  split; [reflexivity|]. split; [reflexivity|]. split; [reflexivity|].
  apply (proj1 (merge_explicit_false_uses_cached_flag ascii_upper
      absent_keyerror
                  ok_server open_pr "OPEN" (PyBool true) []
                  eq_refl eq_refl eq_refl)).
Defined.

(** C1. The code on a page with one well-formed record and one
    error-marker record: [each] yields two items, the wrapped object and
    then None. The error marker is not wrapped, but it is not skipped
    either, although [each] is documented to generate PullRequest objects:
    the generator does not yield exactly one wrapped object. *)
Lemma each_does_not_skip_error_marker :
  well_formed good_record = true
  /\ error_marker error_record = true
  /\ PullRequests.yielded
       (fst (PullRequests.each join one_page 1 prs PyNone PyNone []))
     = [Some (wrapped "prs/1" good_record); None]
  /\ PullRequests.yielded
       (fst (PullRequests.each join one_page 1 prs PyNone PyNone []))
     <> [Some (wrapped "prs/1" good_record)].
Proof.
  split; [reflexivity|]. split; [reflexivity|]. split; [reflexivity|].
  simpl. discriminate.
Qed.

(** The run of [each] on that page. *)
Lemma each_yields_none_for_error_marker_witness :
  Forall (fun d => acceptable d = true)
    (PullRequests.yielded
       (fst (PullRequests._get_paged one_page 1 prs None
               (each_params PyNone PyNone) [])))
  /\ PullRequests.yielded
       (fst (PullRequests.each join one_page 1 prs PyNone PyNone []))
     = map (item_for join prs) [good_record; error_record].
Proof.
  assert (Hall : Forall (fun d => acceptable d = true)
            (PullRequests.yielded
               (fst (PullRequests._get_paged one_page 1 prs None
                       (each_params PyNone PyNone) [])))).
  { simpl. repeat constructor. }
  split; [exact Hall|].
  apply (proj1 (proj2 (each_yields_none_for_error_marker join one_page 1 prs
                         PyNone PyNone [] Hall))).
Defined.

(** C8 at start True and limit "50", against a server whose answer points
    to a next page: one GET, and no more, with 1 and 50 as the ints. *)
Lemma paged_list_methods_issue_one_get_witness :
  paging_arg fifty_of_str (PyBool true)
  /\ paging_arg fifty_of_str (PyStr "50")
  /\ snd (ServiceDesk.get_sla fifty_of_str paging_server (desk false)
            "K-1" (PyBool true) (PyStr "50") [])
     = [mkRequest GET "https://desk"
          (Some "rest/servicedeskapi/request/K-1/sla")
          [("start", PyInt 1); ("limit", PyInt 50)]
          (Some [("X-ExperimentalApi", PyStr "opt-in")]) None].
Proof.
  assert (Hs : paging_arg fifty_of_str (PyBool true)).
  { right. exists 1%Z. reflexivity. }
  assert (Hl : paging_arg fifty_of_str (PyStr "50")).
  { right. exists 50%Z. reflexivity. }
  split; [exact Hs|]. split; [exact Hl|].
  destruct (paged_list_methods_issue_one_get fifty_of_str paging_server
              (desk false) (PyBool true) (PyStr "50") [] Hs Hl)
    as (_ & _ & _ & Hsla & _).
  exact (Hsla "K-1").
Defined.

(** C10 at start None and limit 50: the "values" field without advanced
    mode. *)
Lemma list_methods_unwrap_values_witness :
  opt_int PyNone /\ opt_int (PyInt 50)
  /\ fst (ServiceDesk.get_approvals no_int_of_str paging_server (desk false)
            "K-1" PyNone (PyInt 50) [])
     = Ret (PyList [PyStr "a"; PyStr "b"]).
Proof.
  assert (Hs : opt_int PyNone) by (left; reflexivity).
  assert (Hl : opt_int (PyInt 50)) by (right; exists 50%Z; reflexivity).
  split; [exact Hs|]. split; [exact Hl|].
  destruct (list_methods_unwrap_values no_int_of_str paging_server
              (desk false) "K-1" PyNone (PyInt 50) [] Hs Hl)
    as (_ & _ & _ & _ & Happ).
  destruct (Happ _ eq_refl) as (_ & _ & Hdict).
  exact (Hdict eq_refl _ eq_refl).
Defined.

End Instances.

(** ** Pull request objects: open state, odd states, the close flag *)

Section PullRequestMoreFacts.

Import Bitbucket Spec SpecMore.

Variable upper : string -> string.
Variable absent : string -> outcome pyval.
Variable send : list request -> request -> outcome pyval.

Local Abbreviation is_open := (PullRequest.is_open upper absent).
Local Abbreviation is_merged := (PullRequest.is_merged upper absent).
Local Abbreviation is_declined := (PullRequest.is_declined upper absent).
Local Abbreviation is_superseded := (PullRequest.is_superseded upper absent).
Local Abbreviation approve := (PullRequest.approve upper absent send).
Local Abbreviation unapprove := (PullRequest.unapprove upper absent send).
Local Abbreviation decline := (PullRequest.decline upper absent send).
Local Abbreviation merge := (PullRequest.merge upper absent send).

Implicit Types (pr : PullRequest.t) (s : string) (log : list request).

Lemma py_upper_not_str (v : pyval) :
  (forall s, v <> PyStr s) ->
  py_upper upper v = Raise (AttributeError "upper").
Proof.
  intros H. destruct v; try reflexivity. exfalso. apply (H s). reflexivity.
Qed.

Lemma check_when_not_str pr (v : pyval) log :
  lookup "state" (PullRequest.data pr) = Some v ->
  (forall s, v <> PyStr s) ->
  PullRequest._check_if_open upper absent pr log
    = (Raise (AttributeError "upper"), log).
Proof.
  intros Hst Hv.
  unfold PullRequest._check_if_open, bind, lift, PullRequest.is_open,
    PullRequest.get_data.
  rewrite Hst. simpl. rewrite (py_upper_not_str v Hv). reflexivity.
Qed.

(** X3. On a pull request whose cached state is OPEN (in any case), approve
    makes one POST to "approve" with the body {"approved": True}, unapprove
    one DELETE to "approve", decline one POST to "decline" without a body;
    each returns what the server answers, an error included. *)
Theorem open_pull_request_actions_issue_one_request pr s log :
  lookup "state" (PullRequest.data pr) = Some (PyStr s) ->
  upper s = PR_STATE_OPEN ->
  approve pr log =
    (let r := post_of pr "approve"
                (Some (PyDict [("approved", PyBool true)])) in
     (send log r, log ++ [r]))
  /\ unapprove pr log =
       (let r := delete_of pr "approve" in (send log r, log ++ [r]))
  /\ decline pr log =
       (let r := post_of pr "decline" None in (send log r, log ++ [r])).
Proof.
  intros Hst Hopen.
  pose proof (check_when_open upper absent pr s log Hst Hopen) as Hc.
  unfold PullRequest.approve, PullRequest.unapprove, PullRequest.decline,
    bind.
  rewrite Hc. repeat match goal with |- _ /\ _ => split end; reflexivity.
Qed.

(** X4. When the cached state is present but not a string (null, a number,
    a list), none of the four predicates answers false: each raises
    AttributeError, and so do approve, unapprove, decline and merge, before
    any request. *)
Theorem non_string_state_raises pr (v : pyval) log :
  lookup "state" (PullRequest.data pr) = Some v ->
  (forall s, v <> PyStr s) ->
  is_open pr = Raise (AttributeError "upper")
  /\ is_merged pr = Raise (AttributeError "upper")
  /\ is_declined pr = Raise (AttributeError "upper")
  /\ is_superseded pr = Raise (AttributeError "upper")
  /\ approve pr log = (Raise (AttributeError "upper"), log)
  /\ unapprove pr log = (Raise (AttributeError "upper"), log)
  /\ decline pr log = (Raise (AttributeError "upper"), log)
  /\ forall strategy close,
       merge pr strategy close log = (Raise (AttributeError "upper"), log).
Proof.
  intros Hst Hv.
  pose proof (check_when_not_str pr v log Hst Hv) as Hc.
  pose proof (py_upper_not_str v Hv) as Hu.
  unfold PullRequest.is_open, PullRequest.is_merged, PullRequest.is_declined,
    PullRequest.is_superseded, PullRequest.get_data.
  rewrite Hst. simpl obind. rewrite Hu.
  unfold PullRequest.approve, PullRequest.unapprove, PullRequest.decline,
    PullRequest.merge, bind.
  rewrite Hc.
  repeat match goal with |- _ /\ _ => split end; reflexivity.
Qed.

(** X5. On an open pull request, merge with a valid strategy and a true
    close_source_branch argument sends the caller's value and never reads
    the cached flag: it works whatever the document holds under
    close_source_branch, even nothing. *)
Theorem merge_true_close_flag_is_sent pr s (strategy close : pyval) log :
  lookup "state" (PullRequest.data pr) = Some (PyStr s) ->
  upper s = PR_STATE_OPEN ->
  in_strs strategy PR_MERGE_STRATEGIES = true ->
  truthy close = true ->
  merge pr (Some strategy) (Some close) log =
    let r := post_of pr "merge" (Some (merge_body close strategy)) in
    (send log r, log ++ [r]).
Proof.
  intros Hst Hopen Hin Hclose.
  unfold PullRequest.merge, bind at 1.
  rewrite (check_when_open upper absent pr s log Hst Hopen).
  rewrite Hin. simpl negb. cbv iota.
  unfold bind, lift, py_or. rewrite Hclose. reflexivity.
Qed.

End PullRequestMoreFacts.

(** ** Participants *)

Section ParticipantFacts.

Import PyMore BitbucketMore.

Variable upper : string -> string.
Variable absent : string -> outcome pyval.
Variable repr : pyval -> string.

Local Abbreviation is_participant :=
  (Participant.is_participant upper absent).
Local Abbreviation is_reviewer := (Participant.is_reviewer upper absent).
Local Abbreviation has_approved := (Participant.has_approved absent repr).
Local Abbreviation has_changes_requested :=
  (Participant.has_changes_requested absent repr).

(** X6. For a participant whose document has a state (of any value, null
    included), has_approved and has_changes_requested both return without
    raising, are never both true, and are both false for a null state. For
    a role, is_participant and is_reviewer are never both true when it is
    a string, and both raise AttributeError when it is not. *)
Theorem participant_predicates (p : Participant.t) (state role : pyval) :
  lookup "state" (Participant.data p) = Some state ->
  lookup "role" (Participant.data p) = Some role ->
  (exists a c : bool,
     has_approved p = Ret a /\ has_changes_requested p = Ret c
     /\ a && c = false
     /\ (state = PyNone -> a = false /\ c = false))
  /\ (forall s, role = PyStr s ->
      exists x y : bool,
        is_participant p = Ret x /\ is_reviewer p = Ret y
        /\ x && y = false)
  /\ ((forall s, role <> PyStr s) ->
      is_participant p = Raise (AttributeError "upper")
      /\ is_reviewer p = Raise (AttributeError "upper")).
Proof.
  intros Hstate Hrole.
  unfold Participant.has_approved, Participant.has_changes_requested,
    Participant.is_participant, Participant.is_reviewer,
    Participant.get_data.
  rewrite Hstate, Hrole. simpl obind.
  repeat match goal with |- _ /\ _ => split end.
  - exists (String.eqb (lower (py_str repr state)) PRP_APPROVED),
           (String.eqb (lower (py_str repr state)) PRP_CHANGES_REQUESTED).
    repeat match goal with |- _ /\ _ => split end; try reflexivity.
    + destruct (String.eqb_spec (lower (py_str repr state)) PRP_APPROVED)
        as [E|E]; [|reflexivity].
      rewrite E. reflexivity.
    + intros ->. split; reflexivity.
  - intros s ->. simpl.
    exists (String.eqb (upper s) PRP_ROLE_PARTICIPANT),
           (String.eqb (upper s) PRP_ROLE_REVIEWER).
    repeat match goal with |- _ /\ _ => split end; try reflexivity.
    destruct (String.eqb_spec (upper s) PRP_ROLE_PARTICIPANT) as [E|E];
      [|reflexivity].
    rewrite E. reflexivity.
  - intros H.
    destruct role as [| | |s| |]; try (split; reflexivity).
    exfalso. apply (H s). reflexivity.
Qed.

End ParticipantFacts.

(** ** The collection: a record without an id, and the lookup by id *)

Section PullRequestsMoreFacts.

Import Bitbucket Spec SpecMore PyMore.
Import PullRequests.

Variable url_joiner : string -> pyval -> string.
Variable repr : pyval -> string.
Variable get_page : list request -> request -> outcome page.
Variable fetch : list request -> request -> outcome dict.

Local Abbreviation __get_object := (PullRequests.__get_object url_joiner).
Local Abbreviation each_loop := (PullRequests.each_loop url_joiner).
Local Abbreviation _get_paged := (PullRequests._get_paged get_page).
Local Abbreviation each := (PullRequests.each url_joiner get_page).
Local Abbreviation item_for := (Spec.item_for url_joiner).
Local Abbreviation get :=
  (BitbucketMore.PullRequests.get url_joiner repr fetch).

Implicit Types (self : PullRequests.t) (d : dict) (log : list request).

Lemma get_object_without_id self d :
  has_key "errors" d = false -> lookup "id" d = None ->
  __get_object self d = Raise (KeyError "id").
Proof.
  unfold PullRequests.__get_object. intros -> ->. reflexivity.
Qed.

Lemma yielded_app {A} (xs ys : list (event A)) :
  yielded (xs ++ ys) = yielded xs ++ yielded ys.
Proof.
  induction xs as [|[r|a] xs IH]; simpl; [reflexivity|exact IH|].
  f_equal. exact IH.
Qed.

Lemma each_loop_stops self (before after : list (event dict)) d (st : stop) :
  Forall (fun d => acceptable d = true) (yielded before) ->
  has_key "errors" d = false -> lookup "id" d = None ->
  each_loop self (before ++ Yield d :: after) st
    = (map_yield (item_for self) before, Raised (KeyError "id")).
Proof.
  intros Hall He Hid.
  induction before as [|[r|x] before IH]; simpl.
  - rewrite (get_object_without_id self d He Hid). reflexivity.
  - rewrite (IH Hall). reflexivity.
  - simpl in Hall. inversion Hall as [|? ? Hx Hrest]; subst.
    rewrite (get_object_acceptable url_joiner self x Hx), (IH Hrest).
    reflexivity.
Qed.

(** X1. When the paging delivers a record that has neither the error marker
    nor an id, [each] ends there with KeyError: the items of the records
    before it have been yielded, and nothing that the paging would do
    afterwards happens, neither items nor requests for further pages. *)
Theorem each_stops_at_record_without_id
    fuel self (q sort : pyval) log (before after : list (event dict)) d :
  fst (_get_paged fuel self None (each_params q sort) log)
    = before ++ Yield d :: after ->
  Forall (fun d => acceptable d = true) (yielded before) ->
  has_key "errors" d = false ->
  lookup "id" d = None ->
  each fuel self q sort log
    = (map_yield (item_for self) before, Raised (KeyError "id"))
  /\ requested (fst (each fuel self q sort log)) = requested before
  /\ yielded (fst (each fuel self q sort log))
     = map (item_for self) (yielded before).
Proof.
  intros Hpaged Hall He Hid.
  assert (Heach : each fuel self q sort log
            = (map_yield (item_for self) before, Raised (KeyError "id"))).
  { rewrite (each_unfolded url_joiner get_page), Hpaged.
    apply each_loop_stops; assumption. }
  rewrite Heach. cbn [fst].
  split; [reflexivity|]. split.
  - apply requested_map_yield.
  - apply yielded_map_yield.
Qed.

(** X2. [get(id)] makes exactly one GET, of the path str(id). When the
    answer carries the error marker it returns None instead of raising;
    when the answer is a well-formed record it returns the wrapped object,
    whose URL is joined from the id found in the answer. *)
Theorem get_wraps_or_returns_none self (id : pyval) log d :
  fetch log (get_of self (py_str repr id)) = Ret d ->
  snd (get self id log) = log ++ [get_of self (py_str repr id)]
  /\ (error_marker d = true -> fst (get self id log) = Ret None)
  /\ (well_formed d = true ->
      exists found, lookup "id" d = Some found
        /\ fst (get self id log)
           = Ret (Some (wrapped (url_joiner (url self) found) d))).
Proof.
  intros Hfetch.
  assert (Hget : get self id log
            = (__get_object self d, log ++ [get_of self (py_str repr id)])).
  { unfold BitbucketMore.PullRequests.get, bind,
      BitbucketMore.PullRequests.base_get, lift.
    fold (get_of self (py_str repr id)). rewrite Hfetch.
    reflexivity. }
  rewrite Hget. cbn [fst snd].
  split; [reflexivity|]. split.
  - intros He. apply get_object_error_marker. exact He.
  - intros Hw. apply get_object_well_formed. exact Hw.
Qed.

End PullRequestsMoreFacts.

(** ** The Service Desk client: status, creation, errors, Insight types *)

Section ServiceDeskMoreFacts.

Import Spec SpecMore PyMore.
Import ServiceDeskMore.

Variable repr : pyval -> string.
Variable server : list request -> request -> outcome pyval.
Variable server_kw : list kwcall -> kwcall -> outcome pyval.

Local Abbreviation get_customer_request_status :=
  (ServiceDeskMore.get_customer_request_status server).
Local Abbreviation create_customer_request :=
  (ServiceDeskMore.create_customer_request server_kw).
Local Abbreviation __init__ := (ServiceDeskMore.__init__ repr server).
Local Abbreviation get_insight_object_type :=
  (ServiceDeskMore.get_insight_object_type server).
Local Abbreviation _put_insight_object_type :=
  (ServiceDeskMore._put_insight_object_type server).
Local Abbreviation update_insight_object_type :=
  (ServiceDeskMore.update_insight_object_type server).

Implicit Types (log : list request) (d : dict).

(** X7. Without advanced mode, get_customer_request_status makes one GET
    and answers an empty mapping, never None, when the response is false
    (None, empty) or is a mapping whose "values" is missing or false;
    when "values" is a list that starts with a mapping, it answers the
    "status" of that first entry, or an empty mapping if it has none. *)
Theorem customer_request_status_defaults (self : ServiceDesk.t)
    (id : string) log (response : pyval) :
  ServiceDesk.advanced_mode self = false ->
  server log (desk_request self
                ("rest/servicedeskapi/request/" ++ id ++ "/status") [])
    = Ret response ->
  snd (get_customer_request_status self id log)
    = log ++ [desk_request self
                ("rest/servicedeskapi/request/" ++ id ++ "/status") []]
  /\ (truthy response = false ->
      fst (get_customer_request_status self id log) = XRet (PyDict []))
  /\ (forall d, response = PyDict d ->
      truthy (match lookup "values" d with
              | Some v => v
              | None => PyList []
              end) = false ->
      fst (get_customer_request_status self id log) = XRet (PyDict []))
  /\ (forall d first rest, response = PyDict d ->
      lookup "values" d = Some (PyList (PyDict first :: rest)) ->
      fst (get_customer_request_status self id log)
        = XRet (match lookup "status" first with
                | Some st => st
                | None => PyDict []
                end)).
Proof.
  intros Hadv Hresp.
  unfold ServiceDeskMore.get_customer_request_status.
  rewrite get_runs, Hresp, Hadv. cbn [fst snd].
  split; [reflexivity|]. split; [intros ->; reflexivity|]. split.
  - intros d -> Hfalse.
    destruct (truthy (PyDict d)); [|reflexivity].
    unfold py_get. simpl xlift. simpl xbind. rewrite Hfalse. reflexivity.
  - intros d first rest -> Hvalues.
    assert (Hd : truthy (PyDict d) = true).
    { destruct d; [discriminate Hvalues|reflexivity]. }
    rewrite Hd. unfold py_get. rewrite Hvalues. reflexivity.
Qed.


(** X9. raise_for_status returns normally exactly for a status code below
    400 or from 600 on. For a code from 400 to 599 it raises HTTPError with
    the body's "errorMessage" when the body parses to a mapping that has
    one, and lets the library raise its own HTTPError otherwise; the final
    raise never meets an unbound error_msg. *)
Theorem raise_for_status_cases (r : response) :
  (raise_for_status r = Passes <-> ~ is_error_status (status_code r))
  /\ raise_for_status r <> UnboundLocalError
  /\ (is_error_status (status_code r) ->
      forall d msg,
        json r = Ret (PyDict d) -> lookup "errorMessage" d = Some msg ->
        raise_for_status r = HTTPErrorOf msg)
  /\ (is_error_status (status_code r) ->
      (forall d, json r = Ret (PyDict d) -> lookup "errorMessage" d = None) ->
      raise_for_status r = LibraryHTTPError).
Proof.
  unfold raise_for_status, library_raises, is_error_status.
  destruct ((400 <=? status_code r)%Z && (status_code r <? 600)%Z) eqn:E.
  - apply andb_prop in E as [E1 E2].
    apply Z.leb_le in E1. apply Z.ltb_lt in E2.
    repeat match goal with |- _ /\ _ => split end.
    + split.
      * intros H. exfalso.
        destruct (obind (json r) (fun j => py_getitem j "errorMessage"));
          discriminate H.
      * intros H. exfalso. apply H. lia.
    + destruct (obind (json r) (fun j => py_getitem j "errorMessage"));
        discriminate.
    + intros _ d msg Hj Hm. rewrite Hj. simpl. rewrite Hm. reflexivity.
    + intros _ Hnone.
      destruct (json r) as [j|e]; [|reflexivity].
      destruct j as [| | | | |d]; try reflexivity.
      simpl. rewrite (Hnone d eq_refl). reflexivity.
  - apply andb_false_iff in E.
    assert (Hout : ~ (400 <= status_code r < 600)%Z).
    { destruct E as [E|E]; [apply Z.leb_gt in E|apply Z.ltb_ge in E]; lia. }
    repeat match goal with |- _ /\ _ => split end.
    + split; [intros _; exact Hout | intros _; reflexivity].
    + discriminate.
    + intros H. contradiction.
    + intros H. contradiction.
Qed.

Lemma put_body_built (self : client) (type_id : string)
    (name iconid objectschemaid : pyval)
    (description parentobjecttypeid inherited abstractobjecttype : pyval)
    log :
  _put_insight_object_type self type_id name iconid objectschemaid
    description parentobjecttypeid inherited abstractobjecttype log
  = (let p := put_of (desk self) (object_type_path self type_id)
                (object_type_body type_id name iconid objectschemaid
                   description parentobjecttypeid inherited
                   abstractobjecttype) in
     (server log p, log ++ [p])).
Proof.
  unfold ServiceDeskMore._put_insight_object_type, object_type_body,
    unless_none, put, put_of, object_type_path.
  destruct (is_none description), (is_none parentobjecttypeid),
    (is_none inherited), (is_none abstractobjecttype); reflexivity.
Qed.

Lemma get_type_runs (self : client) (type_id : string) log :
  get_insight_object_type self type_id log
  = (server log (desk_request (desk self) (object_type_path self type_id) []),
     log ++ [desk_request (desk self) (object_type_path self type_id) []]).
Proof. reflexivity. Qed.

(** X10. update_insight_object_type first GETs the object type and then
    PUTs it once. In the body, name, iconId and objectSchemaId are the
    arguments that are true, and for an argument that is false (None,
    empty) the value of the existing type: its "name", its "icon"."id", its
    "objectSchemaId". The other four fields are present only when their
    arguments are not None. *)
Theorem update_insight_object_type_reads_then_writes (self : client)
    (type_id : string) (name iconid objectschemaid : pyval)
    (description parentobjecttypeid inherited abstractobjecttype : pyval)
    log (otype n i o : pyval) :
  server log (desk_request (desk self) (object_type_path self type_id) [])
    = Ret otype ->
  or_existing name (py_getitem otype "name") = Ret n ->
  or_existing iconid
    (obind (py_getitem otype "icon") (fun icon => py_getitem icon "id"))
    = Ret i ->
  or_existing objectschemaid (py_getitem otype "objectSchemaId") = Ret o ->
  update_insight_object_type self type_id name iconid objectschemaid
    description parentobjecttypeid inherited abstractobjecttype log
  = (let g := desk_request (desk self) (object_type_path self type_id) [] in
     let p := put_of (desk self) (object_type_path self type_id)
                (object_type_body type_id n i o description
                   parentobjecttypeid inherited abstractobjecttype) in
     (server (log ++ [g]) p, (log ++ [g]) ++ [p])).
Proof.
  intros Hget Hn Hi Ho.
  unfold ServiceDeskMore.update_insight_object_type, bind at 1.
  rewrite get_type_runs, Hget.
  unfold or_existing in Hn, Hi, Ho.
  unfold bind, lift, py_or. rewrite Hn, Hi, Ho.
  apply put_body_built.
Qed.

(** X11. update_insight_object_type issues no PUT when a value it needs
    from the existing type cannot be read: with the GET answered, an
    exception from reading "name", "icon"."id" or "objectSchemaId" for a
    false argument is raised with the GET as the only request. *)
Theorem update_insight_object_type_fails_before_put (self : client)
    (type_id : string) (name iconid objectschemaid : pyval)
    (description parentobjecttypeid inherited abstractobjecttype : pyval)
    log (otype : pyval) (e : pyexc) :
  server log (desk_request (desk self) (object_type_path self type_id) [])
    = Ret otype ->
  or_existing name (py_getitem otype "name") = Raise e
  \/ (exists n, or_existing name (py_getitem otype "name") = Ret n)
     /\ (or_existing iconid
           (obind (py_getitem otype "icon")
                  (fun icon => py_getitem icon "id")) = Raise e
         \/ (exists i,
               or_existing iconid
                 (obind (py_getitem otype "icon")
                        (fun icon => py_getitem icon "id")) = Ret i)
            /\ or_existing objectschemaid
                 (py_getitem otype "objectSchemaId") = Raise e) ->
  update_insight_object_type self type_id name iconid objectschemaid
    description parentobjecttypeid inherited abstractobjecttype log
  = (Raise e,
     log ++ [desk_request (desk self) (object_type_path self type_id) []]).
Proof.
  intros Hget Hfail.
  unfold ServiceDeskMore.update_insight_object_type, bind at 1.
  rewrite get_type_runs, Hget.
  unfold or_existing in Hfail. unfold bind, lift, py_or.
  destruct Hfail as [Hn|[[n Hn] [Hi|[[i Hi] Ho]]]].
  - rewrite Hn. reflexivity.
  - rewrite Hn, Hi. reflexivity.
  - rewrite Hn, Hi, Ho. reflexivity.
Qed.

Lemma collect_workspace_ids (ws ids : list pyval) :
  Forall2 (fun w id => py_getitem w "workspaceId" = Ret id) ws ids ->
  collect (fun i => py_getitem i "workspaceId") ws = Ret ids.
Proof.
  induction 1 as [|w id ws ids Hw _ IH]; simpl.
  - reflexivity.
  - rewrite Hw. simpl. rewrite IH. reflexivity.
Qed.

(** X12. Once the base class has set the client up, [__init__] makes
    exactly one GET, of the Insight workspace list, and that GET answers a
    mapping. When every listed workspace has a "workspaceId", the
    client takes the first of them, builds its Insight endpoint from that
    id and the version, and ignores the others; when the list is empty the
    set-up fails with StopIteration. *)
Theorem init_uses_first_workspace (self : ServiceDesk.t) (version : pyval)
    log d (ws ids : list pyval) :
  server log (desk_request self "rest/servicedeskapi/insight/workspace" [])
    = Ret (PyDict d) ->
  lookup "values" d = Some (PyList ws) ->
  Forall2 (fun w id => py_getitem w "workspaceId" = Ret id) ws ids ->
  __init__ self version log
  = (match ids with
     | [] => XRaise StopIteration
     | id :: _ =>
         XRet (mkClient self version id
                 ("gateway/api/jsm/insight/workspace/" ++ py_str repr id
                  ++ "/v" ++ py_str repr version ++ "/"))
     end,
     log ++ [desk_request self "rest/servicedeskapi/insight/workspace" []]).
Proof.
  intros Hget Hvalues Hall.
  unfold ServiceDeskMore.__init__, _get_insight_workspace_id,
    _get_insight_workspace_ids, bind.
  rewrite get_runs, Hget. unfold lift, py_getitem at 1.
  rewrite Hvalues. simpl obind.
  rewrite (collect_workspace_ids ws ids Hall).
  destruct ids; reflexivity.
Qed.

End ServiceDeskMoreFacts.

(** ** Paging arguments that are not ints, and messages that are not
       strings *)

Section ArgumentFacts.

Import Spec.

Variable int_of_str : string -> outcome Z.
Variable server : list request -> request -> outcome pyval.
Variable send : list request -> request -> outcome pyval.

Lemma set_start_limit_bad_start (start limit : pyval) (params : dict)
    (e : pyexc) :
  is_none start = false ->
  ServiceDesk.py_int int_of_str start = Raise e ->
  ServiceDesk.set_start_limit int_of_str start limit params = Raise e.
Proof.
  intros Hn He. unfold ServiceDesk.set_start_limit.
  rewrite Hn, He. reflexivity.
Qed.

(** X13. When [start] is not None and int(start) raises, each of the eight
    list methods that take [start] and [limit] raises that exception
    without issuing any request. *)
Theorem paged_list_methods_reject_bad_start (self : ServiceDesk.t)
    (start limit : pyval) (e : pyexc) (log : list request) :
  is_none start = false ->
  ServiceDesk.py_int int_of_str start = Raise e ->
  (forall id,
     ServiceDesk.get_request_participants int_of_str server self id
       start limit log = (Raise e, log))
  /\ (forall sd,
     ServiceDesk.get_organisations int_of_str server self sd
       start limit log = (Raise e, log))
  /\ (forall id,
     ServiceDesk.get_users_in_organization int_of_str server self id
       start limit log = (Raise e, log))
  /\ (forall id,
     ServiceDesk.get_sla int_of_str server self id start limit log
       = (Raise e, log))
  /\ (forall id,
     ServiceDesk.get_approvals int_of_str server self id start limit log
       = (Raise e, log))
  /\ (forall id query,
     ServiceDesk.get_customers int_of_str server self id query
       start limit log = (Raise e, log))
  /\ (forall id include_count,
     ServiceDesk.get_queues int_of_str server self id include_count
       start limit log = (Raise e, log))
  /\ (forall id queue,
     ServiceDesk.get_issues_in_queue int_of_str server self id queue
       start limit log = (Raise e, log)).
Proof.
  intros Hn He.
  pose proof (fun params =>
    set_start_limit_bad_start start limit params e Hn He) as Hp.
  repeat match goal with |- _ /\ _ => split end; intros;
    unfold ServiceDesk.get_request_participants,
      ServiceDesk.get_organisations, ServiceDesk.get_users_in_organization,
      ServiceDesk.get_sla, ServiceDesk.get_approvals,
      ServiceDesk.get_customers, ServiceDesk.get_queues,
      ServiceDesk.get_issues_in_queue, bind, lift;
    rewrite Hp; reflexivity.
Qed.


End ArgumentFacts.

(** ** The further statements at concrete objects *)

Section MoreInstances.

Import Bitbucket Spec SpecMore PyMore Examples ExamplesMore.

(** X1 at the two-page server: the record without an id is the second of
    the first page, and the second page is never requested. *)
Lemma each_stops_at_record_without_id_witness :
  PullRequests.each join two_pages 2 prs PyNone PyNone []
  = ([PullRequests.Req (mkRequest GET "prs" None [] None None);
      PullRequests.Yield (Some (wrapped "prs/1" good_record))],
     PullRequests.Raised (KeyError "id")).
Proof.
  apply (proj1 (each_stops_at_record_without_id join two_pages 2 prs
                  PyNone PyNone []
                  [PullRequests.Req (mkRequest GET "prs" None [] None None);
                   PullRequests.Yield good_record]
                  [PullRequests.Yield good_record;
                   PullRequests.Req
                     (mkRequest GET "prs?page=2" None [] None None);
                   PullRequests.Yield good_record]
                  no_id_record eq_refl
                  (Forall_cons _ (eq_refl : acceptable good_record = true)
                     (Forall_nil _))
                  eq_refl eq_refl)).
Defined.

(** X2 at the id 1. *)
Lemma get_wraps_or_returns_none_witness :
  fetch_good [] (get_of prs (py_str plain_repr (PyInt 1))) = Ret good_record
  /\ BitbucketMore.PullRequests.get join plain_repr fetch_good prs (PyInt 1) []
     = (Ret (Some (wrapped "prs/1" good_record)),
        [mkRequest GET "prs" (Some "1") [] None None]).
Proof.
  split; [reflexivity|].
  destruct (get_wraps_or_returns_none join plain_repr fetch_good prs
              (PyInt 1) [] good_record eq_refl) as (Hlog & _ & Hwrap).
  destruct (Hwrap eq_refl) as (found & Hfound & Hres).
  injection Hfound as <-.
  rewrite (surjective_pairing
             (BitbucketMore.PullRequests.get join plain_repr fetch_good prs
                (PyInt 1) [])).
  rewrite Hlog, Hres. reflexivity.
Defined.

(** X3 at an open pull request. *)
Lemma open_pull_request_actions_issue_one_request_witness :
  lookup "state" (PullRequest.data open_pr) = Some (PyStr "OPEN")
  /\ ascii_upper "OPEN" = PR_STATE_OPEN
  /\ PullRequest.unapprove ascii_upper absent_keyerror ok_server open_pr []
     = (Ret (PyDict []),
        [mkRequest DELETE "prs/7" (Some "approve") [] None None]).
Proof.
  split; [reflexivity|]. split; [reflexivity|].
  apply (proj1 (proj2 (open_pull_request_actions_issue_one_request
                         ascii_upper absent_keyerror ok_server open_pr "OPEN" []
                         eq_refl eq_refl))).
Defined.

(** X4 at a pull request whose state is null. *)
Lemma non_string_state_raises_witness :
  lookup "state" (PullRequest.data null_state_pr) = Some PyNone
  /\ (forall s, PyNone <> PyStr s)
  /\ PullRequest.is_open ascii_upper absent_keyerror null_state_pr
     = Raise (AttributeError "upper")
  /\ PullRequest.decline ascii_upper absent_keyerror ok_server null_state_pr []
     = (Raise (AttributeError "upper"), []).
Proof.
  assert (Hv : forall s, PyNone <> PyStr s) by (intros s; discriminate).
  split; [reflexivity|]. split; [exact Hv|].
  destruct (non_string_state_raises ascii_upper
      absent_keyerror ok_server null_state_pr
              PyNone [] eq_refl Hv)
    as (Ho & _ & _ & _ & _ & _ & Hd & _).
  split; [exact Ho | exact Hd].
Defined.

(** X5 at an open pull request that has no close_source_branch field. *)
Lemma merge_true_close_flag_is_sent_witness :
  lookup "state" (PullRequest.data bare_open_pr) = Some (PyStr "open")
  /\ ascii_upper "open" = PR_STATE_OPEN
  /\ lookup "close_source_branch" (PullRequest.data bare_open_pr) = None
  /\ PullRequest.merge ascii_upper absent_keyerror ok_server bare_open_pr
       (Some (PyStr "squash")) (Some (PyBool true)) []
     = (Ret (PyDict []),
        [mkRequest POST "prs/8" (Some "merge") [] None
           (Some (PyDict [("close_source_branch", PyBool true);
                          ("merge_strategy", PyStr "squash")]))]).
Proof.
  split; [reflexivity|]. split; [reflexivity|]. split; [reflexivity|].
  apply (merge_true_close_flag_is_sent ascii_upper absent_keyerror ok_server
           bare_open_pr "open" (PyStr "squash") (PyBool true) []
           eq_refl eq_refl eq_refl eq_refl).
Defined.

(** X6 at a reviewer who has not acted: the state is null. *)
Lemma participant_predicates_witness :
  lookup "state" (BitbucketMore.Participant.data silent_reviewer)
    = Some PyNone
  /\ lookup "role" (BitbucketMore.Participant.data silent_reviewer)
     = Some (PyStr "REVIEWER")
  /\ exists a c : bool,
       BitbucketMore.Participant.has_approved absent_keyerror plain_repr
         silent_reviewer = Ret a
       /\ BitbucketMore.Participant.has_changes_requested absent_keyerror
            plain_repr silent_reviewer = Ret c
       /\ a && c = false
       /\ (PyNone = PyNone -> a = false /\ c = false).
Proof.
  split; [reflexivity|]. split; [reflexivity|].
  apply (proj1 (participant_predicates ascii_upper absent_keyerror plain_repr
                  silent_reviewer PyNone (PyStr "REVIEWER")
                  eq_refl eq_refl)).
Defined.

(** X7 at a status answer with two entries. *)
Lemma customer_request_status_defaults_witness :
  ServiceDesk.advanced_mode (desk false) = false
  /\ ServiceDeskMore.get_customer_request_status status_server (desk false)
       "K-1" []
     = (XRet (PyStr "Waiting for support"),
        [desk_request (desk false)
           "rest/servicedeskapi/request/K-1/status" []]).
Proof.
  split; [reflexivity|].
  destruct (customer_request_status_defaults status_server (desk false)
              "K-1" [] _ eq_refl eq_refl) as (Hlog & _ & _ & Hfirst).
  rewrite (surjective_pairing
             (ServiceDeskMore.get_customer_request_status status_server
                (desk false) "K-1" [])).
  rewrite Hlog, (Hfirst _ _ _ eq_refl eq_refl). reflexivity.
Defined.

(** X10 at an update that only sets a description: name, icon and schema
    are taken from the existing type. *)
Lemma update_insight_object_type_reads_then_writes_witness :
  ServiceDeskMore.update_insight_object_type type_server insight "12"
    PyNone PyNone PyNone (PyStr "Rack servers") PyNone PyNone PyNone []
  = (Ret server_type,
     [desk_request (desk false)
        "gateway/api/jsm/insight/workspace/w-1/v1/objecttype/12" [];
      put_of (desk false)
        "gateway/api/jsm/insight/workspace/w-1/v1/objecttype/12"
        (PyDict [("id", PyStr "12"); ("name", PyStr "Server");
                 ("iconId", PyStr "5"); ("objectSchemaId", PyStr "3");
                 ("description", PyStr "Rack servers")])]).
Proof.
  apply (update_insight_object_type_reads_then_writes type_server insight
           "12" PyNone PyNone PyNone (PyStr "Rack servers") PyNone PyNone
           PyNone [] server_type (PyStr "Server") (PyStr "5") (PyStr "3")
           eq_refl eq_refl eq_refl eq_refl).
Defined.

(** X11 at an existing type without an icon. *)
Lemma update_insight_object_type_fails_before_put_witness :
  ServiceDeskMore.update_insight_object_type iconless_server insight "12"
    (PyStr "Host") PyNone PyNone PyNone PyNone PyNone PyNone []
  = (Raise (KeyError "icon"),
     [desk_request (desk false)
        "gateway/api/jsm/insight/workspace/w-1/v1/objecttype/12" []]).
Proof.
  apply (update_insight_object_type_fails_before_put iconless_server insight
           "12" (PyStr "Host") PyNone PyNone PyNone PyNone PyNone PyNone []
           _ (KeyError "icon") eq_refl).
  right. split; [exists (PyStr "Host"); reflexivity|].
  left. reflexivity.
Defined.

(** X12 at a server that lists two workspaces. *)
Lemma init_uses_first_workspace_witness :
  ServiceDeskMore.__init__ plain_repr workspace_server (desk false)
    (PyInt 1) []
  = (XRet insight,
     [desk_request (desk false) "rest/servicedeskapi/insight/workspace" []]).
Proof.
  apply (init_uses_first_workspace plain_repr workspace_server (desk false)
           (PyInt 1) []
           [("values", PyList [PyDict [("workspaceId", PyStr "w-1")];
                               PyDict [("workspaceId", PyStr "w-2")]])]
           [PyDict [("workspaceId", PyStr "w-1")];
            PyDict [("workspaceId", PyStr "w-2")]]
           [PyStr "w-1"; PyStr "w-2"] eq_refl eq_refl).
  repeat constructor.
Defined.

(** X13 at a start that is not a number. *)
Lemma paged_list_methods_reject_bad_start_witness :
  is_none (PyStr "abc") = false
  /\ ServiceDesk.py_int no_int_of_str (PyStr "abc")
     = Raise (ValueError "invalid literal for int()")
  /\ ServiceDesk.get_queues no_int_of_str paging_server (desk false) "3"
       (PyBool true) (PyStr "abc") (PyInt 50) []
     = (Raise (ValueError "invalid literal for int()"), []).
Proof.
  split; [reflexivity|]. split; [reflexivity|].
  destruct (paged_list_methods_reject_bad_start no_int_of_str paging_server
              (desk false) (PyStr "abc") (PyInt 50)
              (ValueError "invalid literal for int()") [] eq_refl eq_refl)
    as (_ & _ & _ & _ & _ & _ & Hq & _).
  exact (Hq "3" (PyBool true)).
Defined.

End MoreInstances.
